(** * Expense tracker (app.py): aggregation, chart bars, submission and deletion

    A shallow embedding of the Flask handlers of [app.py] and of the helper
    [get_expense_data].  The expense file is a piece of state (absent, or
    present with its text), the clock is an input, Python floats and
    numpy's float64 are binary64 numbers (Stdlib's [SpecFloat] at
    precision 53), numpy's int64 are integers that wrap around at 64 bits,
    and the sums are added in the order numpy and pandas add them.  The
    behaviour of the libraries that turn text into tables and tables into
    pictures (pandas' reader and coercion, Python's [float()], matplotlib's
    PNG writer) is an interface the model is parameterised by.  One
    reference implementation of that interface, for plain comma-separated
    text with decimal amounts, is given so that the model runs on concrete
    files. *)

From Stdlib Require Import ZArith List String Ascii Bool Lia.
From Stdlib Require Import Permutation Sorted.
From Stdlib Require Import Floats.SpecFloat Numbers.DecimalString.
From Stdlib Require Import Strings.Byte.
Import ListNotations.

Local Open Scope string_scope.
Local Open Scope Z_scope.

(* ================================================================== *)
(** ** Binary64 floating point (Python [float], numpy [float64]) *)
(* ================================================================== *)

Module F64.

Definition prec : Z := 53.
Definition emax : Z := 1024.

Definition float : Type := spec_float.

Definition zero : float := S754_zero false.
Definition nan : float := S754_nan.
Definition inf (neg : bool) : float := S754_infinity neg.

(** The float nearest to an integer (exact below 2^53). *)
Definition of_Z (n : Z) : float := binary_normalize prec emax n 0 false.

Definition add : float -> float -> float := SFadd prec emax.
Definition sub : float -> float -> float := SFsub prec emax.
Definition div : float -> float -> float := SFdiv prec emax.

(** IEEE comparisons: every comparison with a NaN is false. *)
Definition ltb (x y : float) : bool := SFltb x y.
Definition leb (x y : float) : bool := SFleb x y.
Definition gtb (x y : float) : bool := SFltb y x.

Definition is_nan (x : float) : bool :=
  match x with S754_nan => true | _ => false end.

(** The exact value of a finite float, counted in units of 2^-1074 (the
    smallest positive float). *)
Definition units (x : float) : option Z :=
  match x with
  | S754_zero _ => Some 0
  | S754_finite s m e => Some (cond_Zopp s (Zpos m * 2 ^ (e + 1074)))
  | _ => None
  end.

Definition sign_bit (x : float) : bool :=
  match x with
  | S754_zero s | S754_infinity s | S754_finite s _ _ => s
  | S754_nan => false
  end.

(** The float nearest to [d * 10^q] for a positive integer [d]: the
    correctly rounded reading of a decimal literal. *)
Definition of_decimal (neg : bool) (d : positive) (q : Z) : float :=
  if 0 <=? q
  then binary_normalize prec emax
         (cond_Zopp neg (Zpos d * 10 ^ q)) 0 false
  else div (S754_finite neg d 0)
           (S754_finite false (Z.to_pos (10 ^ (- q))) 0).

End F64.

Abbreviation float := F64.float.

(* ================================================================== *)
(** ** 64-bit integers (numpy [int64]) *)
(* ================================================================== *)

Module Int64.

Definition modulus : Z := 2 ^ 64.
Definition min_int : Z := - 2 ^ 63.
Definition max_int : Z := 2 ^ 63 - 1.

Definition in_range (n : Z) : bool := (min_int <=? n) && (n <=? max_int).

(** What 64 bits in two's complement keep of an integer: the value itself
    when it is in range, and the value a multiple of 2^64 away that is in
    range otherwise.  Sums and differences of int64 wrap around this
    way. *)
Definition wrap (n : Z) : Z := (n - min_int) mod modulus + min_int.

End Int64.

(* ================================================================== *)
(** ** Python numbers and their text *)
(* ================================================================== *)

(** A Python [int], a float (Python's or numpy's float64, which behave
    alike here), or a numpy int64.  The helper returns the ints [0] and
    [BUDGET] on one path and numpy values on the other: float64 when the
    amount column holds floats, int64 when it holds only whole numbers. *)
Inductive number : Type :=
  | Int (n : Z)
  | Float (x : float)
  | Int64 (n : Z).

Definition to_float (a : number) : float :=
  match a with
  | Int n | Int64 n => F64.of_Z n
  | Float x => x
  end.

(** [a + b] and [a - b]: exact on two ints, wrapping in 64 bits when an
    int meets an int64, in binary64 as soon as one side is a float. *)
Definition py_add (a b : number) : number :=
  match a, b with
  | Int x, Int y => Int (x + y)
  | Int x, Int64 y | Int64 x, Int y | Int64 x, Int64 y =>
    Int64 (Int64.wrap (x + y))
  | _, _ => Float (F64.add (to_float a) (to_float b))
  end.

Definition py_sub (a b : number) : number :=
  match a, b with
  | Int x, Int y => Int (x - y)
  | Int x, Int64 y | Int64 x, Int y | Int64 x, Int64 y =>
    Int64 (Int64.wrap (x - y))
  | _, _ => Float (F64.sub (to_float a) (to_float b))
  end.

(** Comparisons: exact between integers, in binary64 as soon as one side
    is a float. *)
Definition py_gt (a b : number) : bool :=
  match a, b with
  | (Int x | Int64 x), (Int y | Int64 y) => y <? x
  | _, _ => F64.gtb (to_float a) (to_float b)
  end.

Definition py_lt (a b : number) : bool := py_gt b a.

Definition py_le (a b : number) : bool :=
  match a, b with
  | (Int x | Int64 x), (Int y | Int64 y) => x <=? y
  | _, _ => F64.leb (to_float a) (to_float b)
  end.

(** [a / b], true division.  The only division of the program has a
    numpy value on the left, a float64 or an int64, which numpy divides in
    binary64, and an int that is at least 1 on the right, so the
    ZeroDivisionError of a zero int divisor is not reachable. *)
Definition py_truediv (a b : number) : number :=
  Float (F64.div (to_float a) (to_float b)).

Module Text.

Definition newline : string := String (ascii_of_nat 10) EmptyString.
Definition dquote : string := String (ascii_of_nat 34) EmptyString.

Definition str_nat (n : Z) : string :=
  NilZero.string_of_uint (N.to_uint (Z.to_N n)).

Fixpoint repeat_char (c : ascii) (n : nat) : string :=
  match n with O => EmptyString | S k => String c (repeat_char c k) end.

(** [n] written with at least [w] digits (zeros in front). *)
Definition zero_pad (w : nat) (n : Z) : string :=
  let s := str_nat n in
  repeat_char "0" (w - String.length s) ++ s.

Fixpoint strip_trailing_zeros_rev (s : list ascii) : list ascii :=
  match s with
  | "0"%char :: t => strip_trailing_zeros_rev t
  | _ => s
  end.

(** A positive rational [num/den] below, at or above a power of ten. *)
Definition cmp_pow10 (num den : Z) (p : Z) : comparison :=
  if 0 <=? p then num ?= den * 10 ^ p else num * 10 ^ (- p) ?= den.

(** [floor (log10 (num/den))], from the bit lengths and one correction. *)
Definition floor_log10 (num den : Z) : Z :=
  let est := ((Z.log2 num - Z.log2 den) * 30103) / 100000 in
  let fits p :=
    match cmp_pow10 num den p, cmp_pow10 num den (p + 1) with
    | (Eq | Gt), Lt => true
    | _, _ => false
    end in
  if fits est then est
  else if fits (est - 1) then est - 1
  else if fits (est + 1) then est + 1
  else if fits (est - 2) then est - 2 else est + 2.

(** The exact value of a positive finite float as a fraction. *)
Definition fraction (m : positive) (e : Z) : Z * Z :=
  if 0 <=? e then (Zpos m * 2 ^ e, 1) else (Zpos m, 2 ^ (- e)).

(** The shortest decimal [d * 10^q] that reads back as [m * 2^e], trying
    1, 2, ... significant digits; of the two neighbours with that many
    digits, the nearer one that reads back. *)
Fixpoint shortest_from (fuel : nat) (k : Z) (m : positive) (e : Z)
    (num den p10 : Z) : Z * Z :=
  match fuel with
  | O => (Zpos m, e)
  | S fuel' =>
    let q := p10 + 1 - k in
    let n := if 0 <=? q then num else num * 10 ^ (- q) in
    let d := if 0 <=? q then den * 10 ^ q else den in
    let lo := n / d in
    let r := n mod d in
    let back c :=
      match c with
      | Zpos c' =>
        match F64.of_decimal false c' q with
        | S754_finite _ m' e' => andb (Pos.eqb m' m) (e' =? e)
        | _ => false
        end
      | _ => false
      end in
    let lo_ok := back lo in
    let hi_ok := back (lo + 1) in
    let lo_nearer :=
      match 2 * r ?= d with
      | Lt => true
      | Eq => Z.even lo
      | Gt => false
      end in
    if andb lo_ok (orb lo_nearer (negb hi_ok)) then (lo, q)
    else if hi_ok then (lo + 1, q)
    else shortest_from fuel' (k + 1) m e num den p10
  end.

Definition shortest_decimal (m : positive) (e : Z) : Z * Z :=
  let '(num, den) := fraction m e in
  shortest_from 17 1 m e num den (floor_log10 num den).

(** [repr(x)] of a float, which is also [str(x)] and what an f-string
    writes for [{x}]: shortest digits that read back, fixed notation when
    the decimal point falls within (-4, 16], exponent notation otherwise. *)
Definition repr_float (x : float) : string :=
  match x with
  | S754_nan => "nan"
  | S754_infinity s => if s then "-inf" else "inf"
  | S754_zero s => if s then "-0.0" else "0.0"
  | S754_finite s m e =>
    let '(d, q) := shortest_decimal m e in
    let ds := string_of_list_ascii
                (rev (strip_trailing_zeros_rev
                        (rev (list_ascii_of_string (str_nat d))))) in
    let len := Z.of_nat (String.length ds) in
    let decpt := Z.of_nat (String.length (str_nat d)) + q in
    let body :=
      if andb (-4 <? decpt) (decpt <=? 16) then
        if decpt <=? 0 then
          "0." ++ repeat_char "0" (Z.to_nat (- decpt)) ++ ds
        else if len <=? decpt then
          ds ++ repeat_char "0" (Z.to_nat (decpt - len)) ++ ".0"
        else
          substring 0 (Z.to_nat decpt) ds ++ "." ++
          substring (Z.to_nat decpt) (Z.to_nat (len - decpt)) ds
      else
        let ex := decpt - 1 in
        substring 0 1 ds ++
        (if 1 <? len then "." ++ substring 1 (Z.to_nat (len - 1)) ds
         else "") ++
        "e" ++ (if ex <? 0 then "-" else "+") ++ zero_pad 2 (Z.abs ex) in
    (if s then "-" else "") ++ body
  end.

(** [format(x, '.2f')]: the exact value rounded half-even to two
    decimals. *)
Definition format_2f (x : float) : string :=
  match x with
  | S754_nan => "nan"
  | S754_infinity s => if s then "-inf" else "inf"
  | S754_zero s => if s then "-0.00" else "0.00"
  | S754_finite s m e =>
    let '(num, den) := fraction m e in
    let n := 100 * num in
    let lo := n / den in
    let r := n mod den in
    let cents :=
      match 2 * r ?= den with
      | Lt => lo
      | Eq => if Z.even lo then lo else lo + 1
      | Gt => lo + 1
      end in
    (if s then "-" else "") ++
    str_nat (cents / 100) ++ "." ++ zero_pad 2 (cents mod 100)
  end.

End Text.

(* ================================================================== *)
(** ** Exceptions *)
(* ================================================================== *)

(** A computation that returns a value or raises an exception, kept by
    its message ([str(e)] is all the handlers use). *)
Inductive result (A : Type) : Type :=
  | Ok (a : A)
  | Raise (msg : string).

Arguments Ok {A} a.
Arguments Raise {A} msg.

Definition bind {A B : Type} (r : result A) (k : A -> result B) : result B :=
  match r with
  | Ok a => k a
  | Raise msg => Raise msg
  end.

Notation "x <- e ;; k" := (bind e (fun x => k))
  (at level 61, e at next level, right associativity).

(* ================================================================== *)
(** ** The calendar ([datetime.now()], [calendar.monthrange]) *)
(* ================================================================== *)

Record datetime : Type := Date { year : Z; month : Z; day : Z }.

Definition isleap (y : Z) : bool :=
  (y mod 4 =? 0) && (negb (y mod 100 =? 0) || (y mod 400 =? 0)).

Definition mdays : list Z := [0; 31; 28; 31; 30; 31; 30; 31; 31; 30; 31; 30; 31].

(** [calendar.monthrange(year, month)[1]], for the months 1..12 that a
    [datetime] has. *)
Definition days_in_month (y m : Z) : Z :=
  nth (Z.to_nat m) mdays 0 + (if (m =? 2) && isleap y then 1 else 0).

(* ================================================================== *)
(** ** numpy: the sum of an array *)
(* ================================================================== *)

Module Np.

(** The eight running sums of a block, each with the next eight cells
    added to it, as long as eight cells are left; what is left over comes
    back with them. *)
Fixpoint add_to (r a : list float) : list float :=
  match r, a with
  | x :: r', y :: a' => F64.add x y :: add_to r' a'
  | _, _ => r
  end.

Fixpoint accumulate (fuel : nat) (r a : list float)
  : list float * list float :=
  match fuel with
  | O => (r, a)
  | S fuel' =>
    if (8 <=? List.length a)%nat
    then accumulate fuel' (add_to r (firstn 8 a)) (skipn 8 a)
    else (r, a)
  end.

Definition add8 (r : list float) : float :=
  match r with
  | [r0; r1; r2; r3; r4; r5; r6; r7] =>
    F64.add (F64.add (F64.add r0 r1) (F64.add r2 r3))
            (F64.add (F64.add r4 r5) (F64.add r6 r7))
  | _ => F64.zero
  end.

(** A block of 8 to 128 cells: eight running sums over the cells taken
    eight at a time, the eight added up in pairs, then the cells left
    over, in order. *)
Definition block_sum (a : list float) : float :=
  let '(r, rest) := accumulate (List.length a) (firstn 8 a) (skipn 8 a) in
  fold_left F64.add rest (add8 r).

(** The pairwise sum of a float64 array: fewer than 8 cells are added one
    after the other from 0.0, up to 128 cells as a block, and more than
    that in two halves, the first of a length that is a multiple of 8. *)
Fixpoint pairwise_sum (fuel : nat) (a : list float) : float :=
  let n := List.length a in
  if (n <? 8)%nat then fold_left F64.add a F64.zero
  else if (n <=? 128)%nat then block_sum a
  else
    match fuel with
    | O => F64.zero
    | S fuel' =>
      let n2 := (n / 2 - (n / 2) mod 8)%nat in
      F64.add (pairwise_sum fuel' (firstn n2 a))
              (pairwise_sum fuel' (skipn n2 a))
    end.

(** [np.add.reduce] on a float64 array: the pairwise sum, added to the
    initial value 0.0. *)
Definition sum (a : list float) : float :=
  F64.add F64.zero (pairwise_sum (List.length a) a).

(** [np.add.reduce] on an int64 array: the sum, wrapped into 64 bits. *)
Definition sum_int64 (a : list Z) : Z :=
  Int64.wrap (fold_right Z.add 0 a).

End Np.

(* ================================================================== *)
(** ** Data frames of three columns *)
(* ================================================================== *)

(** An amount cell as the reader leaves it: text (the column has dtype
    object), a float64 number, which is NaN where the cell is missing, or
    a whole number (the column has dtype int64; a bool column, whose cells
    every later step counts as 1 and 0, is a column of those). *)
Inductive cell : Type :=
  | Str (s : string)
  | Num (x : float)
  | Whole (n : Z).

(** One row of the frame with columns [name], [amount], [category].  The
    name and category columns are text, [None] where the cell is missing
    (NaN); the amount column holds [A]. *)
Record row (A : Type) : Type :=
  Row { name : option string; amount : A; category : option string }.

Arguments Row {A} name amount category.
Arguments name {A} r.
Arguments amount {A} r.
Arguments category {A} r.

Definition DataFrame (A : Type) : Type := list (row A).

Module Pd.

(** The two dtypes a numeric amount column can have. *)
Inductive dtype : Type := int64 | float64.

(** [pd.isna] on a number: only a float can be NaN. *)
Definition isna (v : number) : bool :=
  match v with Float x => F64.is_nan x | _ => false end.

Definition is_int64 (v : number) : bool :=
  match v with Int64 _ => true | _ => false end.

Definition is_float (v : number) : bool :=
  match v with Float _ => true | _ => false end.

(** The dtype of a column of numbers: int64 when every cell is one,
    float64 as soon as one cell is a float. *)
Definition dtype_of (xs : list number) : dtype :=
  if forallb is_int64 xs then int64 else float64.

(** A number as a cell of a column of the given dtype: in a float64
    column a whole number is the float it converts to. *)
Definition astype (t : dtype) (v : number) : number :=
  match t with
  | int64 => v
  | float64 => Float (to_float v)
  end.

(** [pd.to_numeric(column, errors='coerce')] on one cell, given what it
    makes of a text cell. *)
Definition to_numeric_cell (conv : string -> float) (c : cell) : number :=
  match c with
  | Str s => Float (conv s)
  | Num x => Float x
  | Whole n => Int64 n
  end.

(** [df['amount'] = pd.to_numeric(df['amount'], errors='coerce')]: every
    cell is made a number, and the column gets one dtype for all of
    them. *)
Definition to_numeric (conv : string -> float) (df : DataFrame cell)
  : DataFrame number :=
  let t := dtype_of (map (fun r => to_numeric_cell conv (amount r)) df) in
  map (fun r => Row (name r) (astype t (to_numeric_cell conv (amount r)))
                    (category r)) df.

Definition notna_text (c : option string) : bool :=
  match c with Some _ => true | None => false end.

(** [df.dropna()]: a row stays when none of its cells is missing. *)
Definition complete_row (r : row number) : bool :=
  notna_text (name r) && negb (isna (amount r)) && notna_text (category r).

Definition dropna (df : DataFrame number) : DataFrame number :=
  filter complete_row df.

(** [df.dropna(subset=["amount", "category"])]. *)
Definition amount_and_category (r : row number) : bool :=
  negb (isna (amount r)) && notna_text (category r).

Definition dropna_amount_category (df : DataFrame number) : DataFrame number :=
  filter amount_and_category df.

(** [df.empty]. *)
Definition empty {A : Type} (df : DataFrame A) : bool :=
  match df with [] => true | _ :: _ => false end.

(** The whole number in an int64 cell. *)
Definition int_value (v : number) : Z :=
  match v with Int n | Int64 n => n | Float _ => 0 end.

(** [Series.sum()] of a column of the given dtype, which the column keeps
    when rows are dropped from it: an int64 column is added in int64; in
    a float64 column NaN cells count as 0.0 and the cells are added as
    numpy adds an array. *)
Definition Series_sum (t : dtype) (xs : list number) : number :=
  match t with
  | int64 => Int64 (Np.sum_int64 (map int_value xs))
  | float64 =>
    Float (Np.sum (map (fun v => let x := to_float v in
                                 if F64.is_nan x then F64.zero else x) xs))
  end.

(** One step of the compensated sum of a group of floats: the running
    sum and the rounding error made so far, which is taken off the next
    cell before it is added. *)
Definition compensated_step (acc : float * float) (val : float)
  : float * float :=
  let '(sumx, compensation) := acc in
  let y := F64.sub val compensation in
  let t := F64.add sumx y in
  let compensation := F64.sub (F64.sub t sumx) y in
  let compensation :=
    if F64.is_nan compensation then F64.zero else compensation in
  (t, compensation).

Definition compensated_sum (xs : list float) : float :=
  fst (fold_left compensated_step xs (F64.zero, F64.zero)).

(** The sum of the cells of one group of a column of the given dtype:
    an int64 group is added in int64, a float64 group with compensation,
    its NaN cells skipped. *)
Definition group_sum (t : dtype) (xs : list number) : number :=
  match t with
  | int64 => Int64 (Np.sum_int64 (map int_value xs))
  | float64 =>
    Float (compensated_sum
             (filter (fun x => negb (F64.is_nan x)) (map to_float xs)))
  end.

Definition has_category (k : string) (r : row number) : bool :=
  match category r with
  | Some c => String.eqb c k
  | None => false
  end.

Definition categories (df : DataFrame number) : list string :=
  flat_map (fun r => match category r with Some c => [c] | None => [] end) df.

Fixpoint insert_key (k : string) (ks : list string) : list string :=
  match ks with
  | [] => [k]
  | k' :: rest =>
    if String.leb k k' then k :: ks else k' :: insert_key k rest
  end.

Definition sort_keys (ks : list string) : list string :=
  fold_right insert_key [] ks.

(** The rows of one group, in frame order. *)
Definition group (k : string) (df : DataFrame number) : DataFrame number :=
  filter (has_category k) df.

(** [df.groupby('category')['amount'].sum()]: one entry per distinct
    category (rows without a category belong to no group), keys in
    ascending order, each with the sum of its rows' amounts. *)
Definition groupby_sum (df : DataFrame number) : list (string * number) :=
  let t := dtype_of (map amount df) in
  map (fun k => (k, group_sum t (map amount (group k df))))
      (sort_keys (nodup string_dec (categories df))).

(** Descending order of a series with NaN last: [a] may stand before
    [b]. *)
Definition desc (a b : number) : bool :=
  isna b || (negb (isna a) && negb (py_lt a b)).

Fixpoint insert_desc (x : string * number) (l : list (string * number))
  : list (string * number) :=
  match l with
  | [] => [x]
  | y :: rest =>
    if py_lt (snd x) (snd y) then y :: insert_desc x rest else x :: l
  end.

(** [series.sort_values(ascending=False)]: numbers from the largest down,
    NaN entries last; ties are left in series order, as the sort of a
    short series leaves them. *)
Definition sort_values_desc (s : list (string * number))
  : list (string * number) :=
  fold_right insert_desc [] (filter (fun kv => negb (isna (snd kv))) s)
  ++ filter (fun kv => isna (snd kv)) s.

End Pd.

(* ================================================================== *)
(** ** What the libraries do with text and pictures *)
(* ================================================================== *)

(** pandas: [read_csv(file, header=None, names=['name','amount','category'])]
    on the text of the file (it may raise), and what
    [to_numeric(errors='coerce')] makes of one text cell (NaN when the
    text is no number). *)
Class Pandas : Type := {
  read_csv : string -> result (DataFrame cell);
  to_numeric_str : string -> float
}.

(** Python's [float(s)]: [None] stands for the ValueError. *)
Class PyFloat : Type := {
  py_float : string -> option float
}.

(** matplotlib: the bar chart of a series, with its title, axis labels
    and value labels, saved as PNG bytes (it may raise). *)
Class Matplotlib : Type := {
  savefig_png : list (string * number) -> result (list byte)
}.

(** [base64.b64encode(bytes).decode()]. *)
Module Base64.

Definition alphabet : string :=
  "ABCDEFGHIJKLMNOPQRSTUVWXYZabcdefghijklmnopqrstuvwxyz0123456789+/".

Definition char (n : N) : ascii :=
  match String.get (N.to_nat n) alphabet with
  | Some c => c
  | None => "="%char
  end.

Fixpoint b64encode (bs : list byte) : string :=
  match bs with
  | [] => ""
  | [a] =>
    let x := Byte.to_N a in
    String (char (x / 4)) (String (char ((x mod 4) * 16)) "==")
  | [a; b] =>
    let x := Byte.to_N a in
    let y := Byte.to_N b in
    String (char (x / 4))
      (String (char ((x mod 4) * 16 + y / 16))
         (String (char ((y mod 16) * 4)) "="))
  | a :: b :: c :: rest =>
    let x := Byte.to_N a in
    let y := Byte.to_N b in
    let z := Byte.to_N c in
    String (char (x / 4))
      (String (char ((x mod 4) * 16 + y / 16))
         (String (char ((y mod 16) * 4 + z / 64))
            (String (char (z mod 64)) (b64encode rest))))
  end%N.

End Base64.

(* ================================================================== *)
(** ** app.py *)
(* ================================================================== *)

(** The file [EXPENSE_FILE = 'expenses.csv']: absent, or present with its
    text.  [os.path.exists] is [exists_]; creating, appending to and
    removing the file are taken to succeed. *)
Definition store : Type := option string.

Definition exists_ (fs : store) : bool :=
  match fs with Some _ => true | None => false end.

Definition BUDGET : Z := 2000.

(** The six values [get_expense_data] returns, in the order of its
    tuple.  The records and the category totals hold the numbers of the
    frame and of the grouped sum ([to_dict] hands out the same numbers as
    Python values). *)
Record snapshot : Type := Snapshot {
  expenses_list : DataFrame number;
  category_totals : list (string * number);
  total_spent : number;
  remaining_budget : number;
  daily_budget : number;
  total_expenses : Z
}.

Section Aggregator.

Context {pandas : Pandas}.

Definition get_expense_data (fs : store) (now : datetime) : result snapshot :=
  match fs with
  | None => Ok (Snapshot [] [] (Int 0) (Int BUDGET) (Int 0) 0)
  | Some content =>
    expenses_df <- read_csv content ;;
    let expenses_df := Pd.to_numeric to_numeric_str expenses_df in
    (* the dtype of the amount column, which dropping rows leaves as
       it is *)
    let amount_dtype := Pd.dtype_of (map amount expenses_df) in
    let expenses_df := Pd.dropna expenses_df in
    let total_spent := Pd.Series_sum amount_dtype (map amount expenses_df) in
    let remaining_budget := py_sub (Int BUDGET) total_spent in
    let total_expenses := Z.of_nat (List.length expenses_df) in
    let days_in_month := days_in_month (year now) (month now) in
    let remaining_days := Z.max 1 (days_in_month - day now) in
    let daily_budget :=
      if py_gt remaining_budget (Int 0)
      then py_truediv remaining_budget (Int remaining_days)
      else Int 0 in
    let category_totals := Pd.groupby_sum expenses_df in
    let expenses_list := expenses_df in
    Ok (Snapshot expenses_list category_totals total_spent
                 remaining_budget daily_budget total_expenses)
  end.

End Aggregator.

(** Modelled from the spec: the [Expense] class of the module [expense],
    which is not among the sources; the spec gives a record of a name, an
    amount and a category. *)
Record Expense : Type := mkExpense {
  expense_name : string;
  expense_category : string;
  expense_amount : float
}.

(** The three fields of the submitted form. *)
Record form : Type := Form {
  form_name : string;
  form_amount : string;
  form_category : string
}.

(** A flashed message and its category. *)
Definition flash : Type := (string * string)%type.

Section Submission.

Context {python : PyFloat}.

(** [POST /add]: the new store and the message flashed; the response is
    always the redirect to the index. *)
Definition add_expense (fs : store) (f : form) : store * flash :=
  let name := form_name f in
  let amount := form_amount f in
  let category := form_category f in
  match py_float amount with
  | None => (fs, ("Please enter a valid amount!", "error"))
  | Some a =>
    let new_expense := mkExpense name category a in
    let fs := if exists_ fs then fs else Some "" in
    let line := expense_name new_expense ++ "," ++
                Text.repr_float (expense_amount new_expense) ++ "," ++
                expense_category new_expense ++ Text.newline in
    let fs := option_map (fun content => content ++ line) fs in
    (fs, ("Expense " ++ Text.dquote ++ name ++ Text.dquote ++ " of $" ++
          Text.format_2f a ++ " added successfully!", "success"))
  end%string.

End Submission.

(** [POST /clear_all]. *)
Definition clear_all (fs : store) : store * flash :=
  if exists_ fs
  then (None, ("All expenses cleared successfully!", "success"))
  else (fs, ("No expenses to clear!", "warning")).

(** The JSON body of a chart response and its HTTP status. *)
Inductive json : Type :=
  | Chart (img_base64 : string)
  | Error (msg : string).

Definition response : Type := (json * Z)%type.

Section ChartRenderer.

Context {pandas : Pandas} {matplotlib : Matplotlib}.

(** The frame the chart is drawn from (lines 97-99). *)
Definition chart_frame (df : DataFrame cell) : DataFrame number :=
  Pd.dropna_amount_category (Pd.to_numeric to_numeric_str df).

(** The series that is plotted, one bar per entry, left to right
    (line 105). *)
Definition chart_bars (df : DataFrame number) : list (string * number) :=
  Pd.sort_values_desc (Pd.groupby_sum df).

(** [GET /generate_chart].  An exception of the reader or of the renderer
    is caught and reported with status 500. *)
Definition generate_chart (fs : store) : response :=
  match fs with
  | None => (Error "No expenses found", 404)
  | Some content =>
    let drawn :=
      df <- read_csv content ;;
      let df := chart_frame df in
      if Pd.empty df
      then Ok (Error "No valid expenses found", 404)
      else
        let agg := chart_bars df in
        img_buffer <- savefig_png agg ;;
        let img_base64 := Base64.b64encode img_buffer in
        Ok (Chart img_base64, 200) in
    match drawn with
    | Ok r => r
    | Raise e => (Error ("Error generating chart: " ++ e)%string, 500)
    end
  end.

End ChartRenderer.

(* ================================================================== *)
(** ** A reference implementation of the libraries, for plain text *)
(* ================================================================== *)

(** Enough of the libraries to run the model on files as the application
    writes them: lines that end with a newline, comma-separated fields
    without quoting, names and categories that are words, amounts written
    as whole numbers that fit 64 bits or as decimal literals of up to 15
    digits.  The theorems below hold for every implementation of the
    interfaces; this one serves the examples. *)
Module Plain.

Definition is_space (c : ascii) : bool :=
  let n := N_of_ascii c in
  ((n =? 32) || ((9 <=? n) && (n <=? 13)))%N.

Fixpoint lstrip (s : list ascii) : list ascii :=
  match s with
  | c :: t => if is_space c then lstrip t else s
  | [] => []
  end.

Definition strip (s : list ascii) : list ascii :=
  rev (lstrip (rev (lstrip s))).

Definition lower (c : ascii) : ascii :=
  let n := N_of_ascii c in
  if ((65 <=? n) && (n <=? 90))%N then ascii_of_N (n + 32) else c.

Definition digit (c : ascii) : option Z :=
  let n := Z.of_N (N_of_ascii c) in
  if (48 <=? n) && (n <=? 57) then Some (n - 48) else None.

(** The digits in front of [s]: their value on top of [acc], how many
    there are on top of [n], and the rest.  Where [underscores] are
    allowed, one may stand between two digits. *)
Fixpoint digits (underscores : bool) (s : list ascii) (acc n : Z)
  : Z * Z * list ascii :=
  match s with
  | c :: t =>
    match digit c with
    | Some d => digits underscores t (10 * acc + d) (n + 1)
    | None =>
      match t with
      | c' :: t' =>
        match digit c' with
        | Some d =>
          if underscores && Ascii.eqb c "_" && (0 <? n)
          then digits underscores t' (10 * acc + d) (n + 1)
          else (acc, n, s)
        | None => (acc, n, s)
        end
      | [] => (acc, n, s)
      end
    end
  | [] => (acc, n, s)
  end.

Definition sign (s : list ascii) : bool * list ascii :=
  match s with
  | "-"%char :: t => (true, t)
  | "+"%char :: t => (false, t)
  | _ => (false, s)
  end.

(** The exponent part that ends a literal: nothing, or [e] and a signed
    integer. *)
Definition exponent (underscores : bool) (s : list ascii) : option Z :=
  match s with
  | [] => Some 0
  | c :: t =>
    if Ascii.eqb (lower c) "e" then
      let '(neg, t) := sign t in
      match digits underscores t 0 0 with
      | (v, n, []) => if 0 <? n then Some (if neg then - v else v) else None
      | _ => None
      end
    else None
  end.

(** Digits with an optional fraction and exponent, after the sign: the
    digits as an integer and the power of ten that scales it. *)
Definition decimal (underscores : bool) (s : list ascii) : option (Z * Z) :=
  let '(i, ni, s1) := digits underscores s 0 0 in
  let '(d, nf, s2) :=
    match s1 with
    | "."%char :: t => digits underscores t i 0
    | _ => (i, 0, s1)
    end in
  if ni + nf =? 0 then None
  else
    match exponent underscores s2 with
    | None => None
    | Some ex => Some (d, ex - nf)
    end.

(** The order of magnitude of [d * 10^q]. *)
Definition magnitude (d q : Z) : Z :=
  Z.of_nat (String.length (Text.str_nat d)) + q.

(** An ASCII decimal literal read as Python's [float()] reads it
    (surrounding blanks, a sign, [inf], [infinity] or [nan] in any case,
    or digits with an optional fraction and exponent), rounded to the
    nearest float; [None] for any other text. *)
Definition parse_decimal (str : string) : option float :=
  let '(neg, s) := sign (strip (list_ascii_of_string str)) in
  let word := string_of_list_ascii (map lower s) in
  if String.eqb word "inf" || String.eqb word "infinity" then Some (F64.inf neg)
  else if String.eqb word "nan" then Some F64.nan
  else
    match decimal true s with
    | None => None
    | Some (Zpos p, q) =>
      let mag := magnitude (Zpos p) q in
      if 310 <? mag then Some (F64.inf neg)
      else if mag <? -330 then Some (S754_zero neg)
      else Some (F64.of_decimal neg p q)
    | Some (_, _) => Some (S754_zero neg)
    end.

(** A text cell read as pandas reads a number: surrounding blanks, a
    sign, digits with an optional fraction and exponent, no underscores,
    nothing beyond the range of the floats; or [inf] or [infinity] in any
    case with a sign and without blanks.  [None] for any other text. *)
Definition read_number (str : string) : option float :=
  let '(neg, s) := sign (strip (list_ascii_of_string str)) in
  match decimal false s with
  | Some (Zpos p, q) =>
    let mag := magnitude (Zpos p) q in
    if (308 <? mag) || (mag <? -307) then None
    else Some (F64.of_decimal neg p q)
  | Some (_, _) => Some (S754_zero neg)
  | None =>
    let '(neg, s) := sign (list_ascii_of_string str) in
    let word := string_of_list_ascii (map lower s) in
    if String.eqb word "inf" || String.eqb word "infinity"
    then Some (F64.inf neg) else None
  end.

(** A text cell read as a whole number: surrounding blanks, a sign and
    digits, within 64 bits. *)
Definition read_whole (str : string) : option Z :=
  let '(neg, s) := sign (strip (list_ascii_of_string str)) in
  match digits false s 0 0 with
  | (v, n, []) =>
    let v := if neg then - v else v in
    if (0 <? n) && Int64.in_range v then Some v else None
  | _ => None
  end.

(** The words read as the booleans. *)
Definition read_bool (str : string) : option bool :=
  if existsb (String.eqb str) ["True"; "TRUE"; "true"] then Some true
  else if existsb (String.eqb str) ["False"; "FALSE"; "false"] then Some false
  else None.

Fixpoint split (sep : ascii) (s cur : list ascii) : list string :=
  match s with
  | [] => [string_of_list_ascii (rev cur)]
  | c :: t =>
    if Ascii.eqb c sep
    then string_of_list_ascii (rev cur) :: split sep t []
    else split sep t (c :: cur)
  end.

(** The texts the reader takes for a missing cell. *)
Definition na_values : list string :=
  [""; "#N/A"; "#N/A N/A"; "#NA"; "-1.#IND"; "-1.#QNAN"; "-NaN"; "-nan";
   "1.#IND"; "1.#QNAN"; "<NA>"; "N/A"; "NA"; "NULL"; "NaN"; "None"; "n/a";
   "nan"; "null"].

Definition is_na (s : string) : bool := existsb (String.eqb s) na_values.

Definition text_cell (s : string) : option string :=
  if is_na s then None else Some s.

(** What [to_numeric] makes of a text cell. *)
Definition number_of (s : string) : float :=
  match read_number s with Some x => x | None => F64.nan end.

(** The lines of a text, each without the carriage return that may end
    it. *)
Definition line_of (l : string) : string :=
  match rev (list_ascii_of_string l) with
  | c :: t =>
    if (N_of_ascii c =? 13)%N then string_of_list_ascii (rev t) else l
  | [] => l
  end.

Definition lines (content : string) : list string :=
  map line_of (split (ascii_of_nat 10) (list_ascii_of_string content) []).

(** A line of nothing but spaces and tabs. *)
Definition blank (l : string) : bool :=
  forallb (fun c => (N_of_ascii c =? 32)%N || (N_of_ascii c =? 9)%N)
          (list_ascii_of_string l).

(** The fields of the lines that are not blank, each with the number of
    its line. *)
Fixpoint records (k : Z) (ls : list string) : list (Z * list string) :=
  match ls with
  | [] => []
  | l :: rest =>
    if blank l then records (k + 1) rest
    else (k, split "," (list_ascii_of_string l) []) :: records (k + 1) rest
  end.

(** The reader stops at the first line with more fields than it
    expects. *)
Fixpoint too_long (width : nat) (rows : list (Z * list string))
  : option string :=
  match rows with
  | [] => None
  | (k, fs) :: rest =>
    if (width <? List.length fs)%nat
    then Some ("Error tokenizing data. C error: Expected " ++
               Text.str_nat (Z.of_nat width) ++ " fields in line " ++
               Text.str_nat k ++ ", saw " ++
               Text.str_nat (Z.of_nat (List.length fs)) ++ Text.newline)
    else too_long width rest
  end.

(** The amount column: whole numbers when every cell is one; floats when
    every cell that is there reads as a number; the booleans, as 1 and 0,
    when every cell is one, and as 1.0 and 0.0 when the cells that are
    there are and some are missing; the texts as they are otherwise. *)
Definition amount_column (amounts : list string) : list cell :=
  let present := filter (fun s => negb (is_na s)) amounts in
  let all (A : Type) (read : string -> option A) (l : list string) :=
    forallb (fun s => match read s with Some _ => true | None => false end)
            l in
  if all Z read_whole amounts then
    map (fun s => match read_whole s with
                  | Some n => Whole n
                  | None => Num F64.nan
                  end) amounts
  else if all float read_number present then
    map (fun s => Num (number_of s)) amounts
  else if all bool read_bool amounts then
    map (fun s => match read_bool s with
                  | Some true => Whole 1
                  | _ => Whole 0
                  end) amounts
  else if all bool read_bool present then
    map (fun s => match read_bool s with
                  | Some true => Num (F64.of_Z 1)
                  | Some false => Num F64.zero
                  | None => Num F64.nan
                  end) amounts
  else
    map (fun s => if is_na s then Num F64.nan else Str s) amounts.

(** The first line that is not blank gives the number of fields of a
    row, three at least; a later line with more fields is an error, one
    with fewer is filled up with missing cells.  The last three fields of
    a row are its name, amount and category (fields before them are the
    index of the row). *)
Definition read_csv (content : string) : result (DataFrame cell) :=
  match records 1 (lines content) with
  | [] => Raise "No columns to parse from file"
  | (k, first) :: rest =>
    let width := Nat.max 3 (List.length first) in
    match too_long width rest with
    | Some e => Raise e
    | None =>
      let rows := map snd ((k, first) :: rest) in
      let field i fs := nth (width - 3 + i) fs "" in
      let amounts := amount_column (map (field 1%nat) rows) in
      Ok (map (fun '(fs, a) => Row (text_cell (field 0%nat fs)) a
                                   (text_cell (field 2%nat fs)))
              (combine rows amounts))
    end
  end.

(** A stand-in for the renderer: the eight bytes every PNG file starts
    with, then one byte per bar. *)
Definition png_signature : list byte :=
  [x89; x50; x4e; x47; x0d; x0a; x1a; x0a].

Definition savefig_png (bars : list (string * number)) : result (list byte) :=
  Ok (png_signature ++ map (fun _ => x00) bars)%list.

End Plain.

Definition plain_pandas : Pandas :=
  {| read_csv := Plain.read_csv; to_numeric_str := Plain.number_of |}.

Definition plain_float : PyFloat :=
  {| py_float := Plain.parse_decimal |}.

Definition plain_matplotlib : Matplotlib :=
  {| savefig_png := Plain.savefig_png |}.

(* ================================================================== *)
(** ** Statements of the specification, in its own words *)
(* ================================================================== *)

(** A store that the helper can read: it is absent, or the reader returns
    a frame for its text. *)
Definition readable {pandas : Pandas} (fs : store) : Prop :=
  match fs with
  | None => True
  | Some content => exists df, read_csv content = Ok df
  end.

(** The days left in the month of a date, as line 38 counts them. *)
Definition remaining_days (now : datetime) : Z :=
  Z.max 1 (days_in_month (year now) (month now) - day now).

(** The dtype of the amount column of a frame once it is numeric
    (line 25). *)
Definition amount_dtype {pandas : Pandas} (df : DataFrame cell) : Pd.dtype :=
  Pd.dtype_of (map amount (Pd.to_numeric to_numeric_str df)).

(** The frame the aggregator computes its figures from (lines 24-26). *)
Definition kept {pandas : Pandas} (df : DataFrame cell) : DataFrame number :=
  Pd.dropna (Pd.to_numeric to_numeric_str df).

(** The records whose amount reads as a number, whatever their other
    cells. *)
Definition parsing_amounts {pandas : Pandas} (df : DataFrame cell)
  : DataFrame number :=
  filter (fun r => negb (Pd.isna (amount r)))
         (Pd.to_numeric to_numeric_str df).

(** The sum over all category totals, added in the order of the mapping
    as Python's [sum] adds. *)
Definition sum_of_category_totals (s : snapshot) : number :=
  fold_left py_add (map snd (category_totals s)) (Int 0).

(** The exact sum of an integer measure over a list: with the measure 1
    it counts, with an amount in cents or in [F64.units] it adds amounts
    without rounding. *)
Definition total_of {A : Type} (w : A -> Z) (l : list A) : Z :=
  fold_right Z.add 0 (map w l).

(** A bar that may stand before another in a chart sorted descending by
    total: it is not lower, and a NaN total comes after every number. *)
Definition desc_pair (x y : string * number) : Prop :=
  Pd.desc (snd x) (snd y) = true.

Definition not_nan (x : string * number) : Prop := Pd.isna (snd x) = false.

(** The fields of a snapshot that do not depend on the clock. *)
Definition dateless (s : snapshot)
  : DataFrame number * list (string * number) * number * number * Z :=
  (expenses_list s, category_totals s, total_spent s, remaining_budget s,
   total_expenses s).

Definition on_result {A B : Type} (f : A -> B) (r : result A) : result B :=
  match r with Ok a => Ok (f a) | Raise e => Raise e end.

(** The aggregator's figures as the sum and the count over every record
    whose amount reads as a number. *)
Definition totals_over_parsing_amounts {pandas : Pandas}
    (content : string) (now : datetime) : Prop :=
  forall df s,
    read_csv content = Ok df ->
    get_expense_data (Some content) now = Ok s ->
    total_spent s
    = Pd.Series_sum (amount_dtype df) (map amount (parsing_amounts df)) /\
    total_expenses s = Z.of_nat (List.length (parsing_amounts df)).

(** The daily budget following the formula of the specification on every
    record set, the one of the absent store included. *)
Definition daily_budget_by_formula {pandas : Pandas}
    (fs : store) (now : datetime) : Prop :=
  forall s,
    get_expense_data fs now = Ok s ->
    daily_budget s =
    if py_gt (remaining_budget s) (Int 0)
    then py_truediv (remaining_budget s) (Int (remaining_days now))
    else Int 0.

(** The category totals adding up to the total spent, bit for bit. *)
Definition category_totals_add_up {pandas : Pandas}
    (content : string) (now : datetime) : Prop :=
  forall s,
    get_expense_data (Some content) now = Ok s ->
    sum_of_category_totals s = total_spent s.

(** Two snapshots of one store being the same. *)
Definition same_snapshot_twice {pandas : Pandas}
    (fs : store) (first second : datetime) : Prop :=
  get_expense_data fs first = get_expense_data fs second.

(* ================================================================== *)
(** ** Stores and dates for the examples *)
(* ================================================================== *)

Module Examples.

(** A file made of the given lines. *)
Definition file (lines : list string) : string :=
  String.concat "" (map (fun l => l ++ Text.newline)%string lines).

(** The scenario of the specification. *)
Definition coffee_and_bus : string :=
  file ["Coffee,4.50,Food"; "Bus,2.00,Transport"].

(** A record without a name next to a complete one. *)
Definition nameless : string :=
  file ["Coffee,4.50,Food"; ",5.0,Food"].

(** Three small amounts in two categories. *)
Definition small_amounts : string :=
  file ["Tea,0.1,Drinks"; "Bus,0.2,Transport"; "Taxi,0.3,Transport"].

(** The same three amounts in one category. *)
Definition small_amounts_together : string :=
  file ["Tea,0.1,Drinks"; "Juice,0.2,Drinks"; "Water,0.3,Drinks"].

(** Ten expenses of 0.1. *)
Definition ten_dimes : string :=
  file (repeat "Sweet,0.1,Food" 10).

(** One expense above the budget, as the application writes it and
    written by hand as a whole number. *)
Definition rent : string := file ["Rent,2500.0,Housing"].
Definition rent_whole : string := file ["Rent,2500,Housing"].

(** Whole amounts in two categories. *)
Definition whole_amounts : string :=
  file ["Rent,1200,Housing"; "Bus,40,Transport"; "Power,60,Housing"].

(** Two whole amounts whose sum does not fit 64 bits. *)
Definition huge_amounts : string :=
  file ["Yacht,9223372036854775807,Leisure"; "Tip,1,Leisure"].

(** Only an amount that is no number. *)
Definition unparseable : string := file ["Coffee,abc,Food"].

Definition jan29 : datetime := Date 2024 1 29.
Definition jan30 : datetime := Date 2024 1 30.
Definition jan31 : datetime := Date 2024 1 31.

(** Numbers and series shown as Python prints them. *)
Definition show (a : number) : string :=
  match a with
  | Int n | Int64 n =>
    if n <? 0 then ("-" ++ Text.str_nat (- n))%string else Text.str_nat n
  | Float x => Text.repr_float x
  end.

Definition show_series (l : list (string * number)) : list (string * string) :=
  map (fun kv => (fst kv, show (snd kv))) l.

End Examples.

(* ================================================================== *)
(** ** app.py: the other handlers, and requests in sequence *)
(* ================================================================== *)

(** [str(n)] of an int. *)
Definition py_str_int (n : Z) : string :=
  if n <? 0 then ("-" ++ Text.str_nat (- n))%string else Text.str_nat n.

Section ReadHandlers.

Context {pandas : Pandas}.

(** [GET /]: the values handed to the template [index.html], the six of
    the helper and the budget.  The helper is called outside any [try]:
    an exception of it leaves the handler. *)
Definition index (fs : store) (now : datetime) : result (snapshot * Z) :=
  s <- get_expense_data fs now ;;
  Ok (s, BUDGET).

(** [GET /export_data]: the message flashed; the response is always the
    redirect to the index. *)
Definition export_data (fs : store) (now : datetime) : flash :=
  if negb (exists_ fs) then ("No expenses to export!", "warning")
  else
    match get_expense_data fs now with
    | Ok s =>
      ("Data exported! Total: " ++ py_str_int (total_expenses s) ++
       " expenses, Amount: $" ++ Text.format_2f (to_float (total_spent s)),
       "success")
    | Raise e => ("Error exporting data: " ++ e, "error")
    end%string.

End ReadHandlers.

(** The JSON body of [GET /summary]: the five figures, or an error. *)
Inductive summary_json : Type :=
  | Summary (total_spent remaining_budget daily_budget : number)
            (total_expenses : Z) (category_totals : list (string * number))
  | SummaryError (msg : string).

(** A figure as [jsonify] takes it: an int or a float goes into the JSON
    text, a numpy int64 raises a TypeError. *)
Definition json_number (a : number) : result number :=
  match a with
  | Int64 _ => Raise "Object of type int64 is not JSON serializable"
  | _ => Ok a
  end.

Section SummaryHandler.

Context {pandas : Pandas}.

(** [GET /summary].  An exception of the helper or of [jsonify] is
    answered with status 500 and its message. *)
Definition get_summary (fs : store) (now : datetime) : summary_json * Z :=
  let answer :=
    s <- get_expense_data fs now ;;
    total_spent <- json_number (total_spent s) ;;
    remaining_budget <- json_number (remaining_budget s) ;;
    daily_budget <- json_number (daily_budget s) ;;
    Ok (Summary total_spent remaining_budget daily_budget
                (total_expenses s) (category_totals s), 200) in
  match answer with
  | Ok r => r
  | Raise e => (SummaryError e, 500)
  end.

End SummaryHandler.

(** The two requests that change the store. *)
Inductive request : Type :=
  | PostAdd (f : form)
  | PostClearAll.

Section Requests.

Context {python : PyFloat}.

(** The store after one request. *)
Definition handle (fs : store) (r : request) : store :=
  match r with
  | PostAdd f => fst (add_expense fs f)
  | PostClearAll => fst (clear_all fs)
  end.

(** The store after the requests of a list, served in order. *)
Definition serve (fs : store) (rs : list request) : store :=
  fold_left handle rs fs.

(** The line written for a submission whose amount reads as [a]
    (line 79). *)
Definition record_line (f : form) (a : float) : string :=
  (form_name f ++ "," ++ Text.repr_float a ++ "," ++
   form_category f ++ Text.newline)%string.

(** A submission whose amount parses. *)
Definition accepted (f : form) : bool :=
  match py_float (form_amount f) with Some _ => true | None => false end.

(** The lines of the submissions of a list that are accepted, in order. *)
Definition accepted_lines (fs : list form) : list string :=
  flat_map (fun f => match py_float (form_amount f) with
                     | Some a => [record_line f a]
                     | None => []
                     end) fs.

End Requests.

(** Strings written one after the other. *)
Definition joined (ls : list string) : string :=
  fold_right String.append "" ls.

(** The text of a store, empty when it is absent. *)
Definition text_of (fs : store) : string :=
  match fs with Some content => content | None => "" end.

(** A store whose text, if any, is empty or ends with a newline: the next
    line appended starts a line of its own. *)
Definition well_terminated (fs : store) : Prop :=
  match fs with
  | None => True
  | Some content =>
    content = "" \/ exists front, content = (front ++ Text.newline)%string
  end.

(** A date of the calendar. *)
Definition valid_date (now : datetime) : Prop :=
  1 <= month now <= 12 /\
  1 <= day now <= days_in_month (year now) (month now).

Module MoreExamples.

(** A line of four fields: the first one is the index of the row, the
    other three are its name, amount and category. *)
Definition four_fields : string := Examples.file ["Lunch,Cafe,12.5,Food"].

(** A line of four fields after a line of three, which the reader
    refuses. *)
Definition ragged : string :=
  Examples.file ["Coffee,4.5,Food"; "Lunch,Cafe,12.5,Food"].

(** A budget month with a leap day. *)
Definition feb28_2024 : datetime := Date 2024 2 28.
Definition feb29_2024 : datetime := Date 2024 2 29.

End MoreExamples.
(* ================================================================== *)
(** ** Facts about binary64 *)
(* ================================================================== *)

Module F64Facts.

Lemma round_aux_sign (s : bool) (m e : Z) (l : location) :
  F64.sign_bit (binary_round_aux F64.prec F64.emax s m e l) = s \/
  binary_round_aux F64.prec F64.emax s m e l = S754_nan.
Proof.
  unfold binary_round_aux.
  destruct (shr_fexp F64.prec F64.emax m e l) as [mrs' e'].
  destruct (shr_fexp _ _ _ e' loc_Exact) as [mrs'' e''].
  destruct (shr_m mrs'') as [|p|p]; simpl; auto.
  destruct (_ <=? _); simpl; auto.
Qed.

Lemma round_aux_nonneg (m e : Z) (l : location) :
  F64.sign_bit (binary_round_aux F64.prec F64.emax false m e l) = false.
Proof.
  destruct (round_aux_sign false m e l) as [H|H]; [exact H|].
  rewrite H; reflexivity.
Qed.

Lemma of_Z_nonneg (n : Z) : 0 <= n -> F64.sign_bit (F64.of_Z n) = false.
Proof.
  intros Hn. unfold F64.of_Z, binary_normalize.
  destruct n as [|p|p]; [reflexivity| |lia].
  unfold binary_round.
  destruct (shl_align _ _ _) as [mz ez].
  apply round_aux_nonneg.
Qed.

(** A float with a clear sign bit is not below zero. *)
Lemma nonneg_not_below_zero (x : F64.float) :
  F64.sign_bit x = false -> F64.ltb x F64.zero = false.
Proof.
  destruct x as [s|s| |s m e]; simpl; intros Hs; try rewrite Hs;
    reflexivity.
Qed.

(** Above zero means finite or infinite with a clear sign bit. *)
Lemma above_zero_inv (x : F64.float) :
  F64.gtb x F64.zero = true ->
  x = S754_infinity false \/ exists m e, x = S754_finite false m e.
Proof.
  destruct x as [s|s| |s m e]; unfold F64.gtb, SFltb; simpl;
    try discriminate.
  - destruct s; [discriminate|auto].
  - destruct s; [discriminate|eauto].
Qed.

Lemma div_nonneg (x y : F64.float) :
  F64.gtb x F64.zero = true ->
  F64.sign_bit y = false ->
  F64.sign_bit (F64.div x y) = false.
Proof.
  intros Hx Hy.
  destruct (above_zero_inv x Hx) as [->|(m & e & ->)];
    destruct y as [sy|sy| |sy my ey]; simpl in Hy; subst; simpl;
    try reflexivity.
  destruct (SFdiv_core_binary _ _ _ _ _ _) as [[mz ez] lz].
  apply round_aux_nonneg.
Qed.

(** At most zero excludes above zero. *)
Lemma le_zero_not_above (x : F64.float) :
  F64.leb x F64.zero = true -> F64.gtb x F64.zero = false.
Proof.
  destruct x as [s|s| |s m e]; unfold F64.leb, F64.gtb, SFleb, SFltb;
    simpl; try reflexivity; destruct s; simpl; congruence.
Qed.

(** Strictly below is asymmetric. *)
Lemma ltb_asym (x y : F64.float) :
  F64.ltb x y = true -> F64.ltb y x = false.
Proof.
  unfold F64.ltb, SFltb.
  destruct x as [sx|sx| |sx mx ex], y as [sy|sy| |sy my ey]; simpl;
    try discriminate; try reflexivity;
    try (destruct sx; simpl; congruence);
    try (destruct sy; simpl; congruence);
    try (destruct sx, sy; simpl; congruence).
  fold (Pos.compare mx my). fold (Pos.compare my mx).
  rewrite (Z.compare_antisym ex ey), (Pos.compare_antisym mx my).
  destruct sx, sy; simpl; try congruence;
    destruct (ex ?= ey); simpl; try congruence;
    destruct (mx ?= my)%positive; simpl; congruence.
Qed.


(** Above zero implies a clear sign bit. *)
Lemma gt_zero_sign (x : F64.float) :
  F64.gtb x F64.zero = true -> F64.sign_bit x = false.
Proof.
  intros Hx. destruct (above_zero_inv x Hx) as [->|(m & e & ->)];
    reflexivity.
Qed.

(** The quotient of two floats with clear sign bits has a clear sign
    bit. *)
Lemma div_sign (x y : F64.float) :
  F64.sign_bit x = false -> F64.sign_bit y = false ->
  F64.sign_bit (F64.div x y) = false.
Proof.
  intros Hx Hy.
  destruct x as [sx|sx| |sx mx ex], y as [sy|sy| |sy my ey];
    simpl in Hx, Hy; subst; simpl; try reflexivity.
  destruct (SFdiv_core_binary _ _ _ _ _ _) as [[mz ez] lz].
  apply round_aux_nonneg.
Qed.

Lemma shr_1_nonneg (mrs : shr_record) :
  0 <= shr_m mrs -> 0 <= shr_m (shr_1 mrs).
Proof.
  destruct mrs as [m r s]. destruct m as [|[p|p|]|p]; simpl; lia.
Qed.

Lemma iter_shr_1_nonneg (p : positive) (mrs : shr_record) :
  0 <= shr_m mrs -> 0 <= shr_m (iter_pos shr_1 p mrs).
Proof.
  revert mrs. induction p as [p IH|p IH|]; intros mrs H; simpl.
  - apply IH, IH, shr_1_nonneg, H.
  - apply IH, IH, H.
  - apply shr_1_nonneg, H.
Qed.

Lemma shr_fexp_nonneg (m e : Z) (l : location) :
  0 <= m -> 0 <= shr_m (fst (shr_fexp F64.prec F64.emax m e l)).
Proof.
  intros Hm. unfold shr_fexp, shr.
  assert (H0 : 0 <= shr_m (shr_record_of_loc m l))
    by (destruct l as [|[| |]]; exact Hm).
  destruct (fexp _ _ _ - e) as [|p|p]; cbn [fst];
    [exact H0|apply iter_shr_1_nonneg, H0|exact H0].
Qed.

(** Rounding a mantissa that is not negative never gives NaN. *)
Lemma round_aux_not_nan (s : bool) (m e : Z) (l : location) :
  0 <= m ->
  F64.is_nan (binary_round_aux F64.prec F64.emax s m e l) = false.
Proof.
  intros Hm. unfold binary_round_aux.
  pose proof (shr_fexp_nonneg m e l Hm) as H1.
  destruct (shr_fexp F64.prec F64.emax m e l) as [mrs' e']. cbn [fst] in H1.
  assert (H2 : 0 <= round_nearest_even (shr_m mrs') (loc_of_shr_record mrs')).
  { unfold round_nearest_even.
    destruct (loc_of_shr_record mrs') as [|[| |]]; try lia.
    destruct (IntDef.Z.even _); lia. }
  pose proof (shr_fexp_nonneg _ e' loc_Exact H2) as H3.
  destruct (shr_fexp _ _ _ e' loc_Exact) as [mrs'' e'']. cbn [fst] in H3.
  destruct (shr_m mrs'') as [|p|p]; [reflexivity| |lia].
  destruct (_ <=? _); reflexivity.
Qed.

(** The float of an integer is a number. *)
Lemma of_Z_not_nan (n : Z) : F64.is_nan (F64.of_Z n) = false.
Proof.
  unfold F64.of_Z, binary_normalize.
  destruct n as [|p|p]; [reflexivity| |]; unfold binary_round;
    destruct (shl_align _ _ _) as [mz ez]; apply round_aux_not_nan; lia.
Qed.

End F64Facts.

(* ================================================================== *)
(** ** Facts about 64-bit integers and about comparisons *)
(* ================================================================== *)

Module Int64Facts.

Lemma wrap_in_range (n : Z) : Int64.in_range n = true -> Int64.wrap n = n.
Proof.
  unfold Int64.in_range, Int64.wrap, Int64.min_int, Int64.max_int,
    Int64.modulus.
  intros H. apply andb_true_iff in H. destruct H as [Hlo Hhi].
  apply Z.leb_le in Hlo, Hhi.
  rewrite Z.mod_small; lia.
Qed.

Lemma wrap_range (n : Z) : Int64.in_range (Int64.wrap n) = true.
Proof.
  unfold Int64.in_range, Int64.wrap, Int64.min_int, Int64.max_int,
    Int64.modulus.
  pose proof (Z.mod_pos_bound (n - - 2 ^ 63) (2 ^ 64) ltac:(lia)).
  apply andb_true_iff. split; apply Z.leb_le; lia.
Qed.

(** Wrapping differs from the integer by a multiple of 2^64. *)
Lemma wrap_congruent (n : Z) :
  exists k, Int64.wrap n = n + k * Int64.modulus.
Proof.
  unfold Int64.wrap. exists (- ((n - Int64.min_int) / Int64.modulus)).
  pose proof (Z.div_mod (n - Int64.min_int) Int64.modulus
                ltac:(unfold Int64.modulus; lia)).
  lia.
Qed.

Lemma wrap_shift (n k : Z) : Int64.wrap (n + k * Int64.modulus) = Int64.wrap n.
Proof.
  unfold Int64.wrap.
  replace (n + k * Int64.modulus - Int64.min_int)
    with (n - Int64.min_int + k * Int64.modulus) by lia.
  rewrite Z.mod_add; [reflexivity|unfold Int64.modulus; lia].
Qed.

(** Wrapping the parts of a sum first does not change the wrapped sum. *)
Lemma wrap_add_l (a b : Z) : Int64.wrap (Int64.wrap a + b) = Int64.wrap (a + b).
Proof.
  destruct (wrap_congruent a) as (k & ->).
  replace (a + k * Int64.modulus + b) with (a + b + k * Int64.modulus) by lia.
  apply wrap_shift.
Qed.

Lemma wrap_add_r (a b : Z) : Int64.wrap (a + Int64.wrap b) = Int64.wrap (a + b).
Proof.
  rewrite Z.add_comm, wrap_add_l, Z.add_comm. reflexivity.
Qed.

Lemma wrap_total_of {A : Type} (w : A -> Z) (l : list A) :
  Int64.wrap (total_of (fun x => Int64.wrap (w x)) l)
  = Int64.wrap (total_of w l).
Proof.
  unfold total_of. induction l as [|x l IH]; simpl; [reflexivity|].
  rewrite wrap_add_l, <- wrap_add_r, IH, wrap_add_r. reflexivity.
Qed.

End Int64Facts.

Module NumberFacts.

(** Strictly below is asymmetric on numbers. *)
Lemma py_lt_asym (a b : number) : py_lt a b = true -> py_lt b a = false.
Proof.
  unfold py_lt, py_gt.
  destruct a as [x|x|x], b as [y|y|y]; cbn [to_float];
    try (rewrite Z.ltb_lt, Z.ltb_ge; lia);
    unfold F64.gtb; apply F64Facts.ltb_asym.
Qed.

End NumberFacts.

(* ================================================================== *)
(** ** Facts about frames, sums and groups *)
(* ================================================================== *)

Module PdFacts.

Lemma filter_twice {A : Type} (f g : A -> bool) (l : list A) :
  filter g (filter f l) = filter (fun x => f x && g x) l.
Proof.
  induction l as [|x l IH]; simpl; [reflexivity|].
  destruct (f x); simpl; [destruct (g x)|]; rewrite IH; reflexivity.
Qed.

Lemma filter_all {A : Type} (f : A -> bool) (l : list A) :
  (forall x, In x l -> f x = true) -> filter f l = l.
Proof.
  induction l as [|x l IH]; simpl; intros H; [reflexivity|].
  rewrite (H x (or_introl eq_refl)), IH; auto.
Qed.

(** A number that is there converts to a float that is no NaN. *)
Lemma notna_to_float (v : number) :
  Pd.isna v = false -> F64.is_nan (to_float v) = false.
Proof.
  destruct v as [n|x|n]; cbn [Pd.isna to_float]; intros H;
    [apply F64Facts.of_Z_not_nan|exact H|apply F64Facts.of_Z_not_nan].
Qed.

(** The dtype of a column: int64 exactly when every cell is an int64. *)
Lemma dtype_int64 (xs : list number) :
  Pd.dtype_of xs = Pd.int64 <->
  forall v, In v xs -> exists n, v = Int64 n.
Proof.
  unfold Pd.dtype_of. destruct (forallb Pd.is_int64 xs) eqn:E.
  - split; [|reflexivity]. intros _ v Hv.
    rewrite forallb_forall in E. specialize (E v Hv).
    destruct v as [n|x|n]; try discriminate. eauto.
  - split; [discriminate|]. intros H. exfalso.
    assert (Hall : forallb Pd.is_int64 xs = true).
    { apply forallb_forall. intros v Hv. destruct (H v Hv) as (n & ->).
      reflexivity. }
    congruence.
Qed.

(** A column with a float in it is a float64 column. *)
Lemma dtype_float64 (xs : list number) (x : float) :
  In (Float x) xs -> Pd.dtype_of xs = Pd.float64.
Proof.
  intros Hx. destruct (Pd.dtype_of xs) eqn:E; [|reflexivity].
  destruct (proj1 (dtype_int64 xs) E _ Hx) as (n & Hn). discriminate Hn.
Qed.

(** Dropping cells from an int64 column leaves an int64 column. *)
Lemma dtype_int64_incl (xs ys : list number) :
  incl ys xs -> Pd.dtype_of xs = Pd.int64 -> Pd.dtype_of ys = Pd.int64.
Proof.
  intros Hincl Hxs. apply dtype_int64. intros v Hv.
  apply (proj1 (dtype_int64 xs) Hxs). apply Hincl, Hv.
Qed.

(** Cells that are there in a float64 column are added as they are. *)
Lemma fill_notna (xs : list number) :
  (forall v, In v xs -> Pd.isna v = false) ->
  map (fun v => let x := to_float v in
                if F64.is_nan x then F64.zero else x) xs
  = map to_float xs.
Proof.
  intros H. apply map_ext_in. intros v Hv. cbn zeta.
  rewrite (notna_to_float v (H v Hv)). reflexivity.
Qed.

Lemma filter_none {A : Type} (f : A -> bool) (l : list A) :
  (forall x, In x l -> f x = false) -> filter f l = [].
Proof.
  induction l as [|x l IH]; simpl; intros H; [reflexivity|].
  rewrite (H x (or_introl eq_refl)). apply IH. auto.
Qed.

(** A cell of a column of either dtype is missing exactly when the
    number it is made from is. *)
Lemma isna_astype (t : Pd.dtype) (v : number) :
  Pd.isna (Pd.astype t v) = Pd.isna v.
Proof.
  destruct t; [reflexivity|].
  destruct v as [n|x|n]; cbn [Pd.astype Pd.isna to_float];
    [apply F64Facts.of_Z_not_nan|reflexivity|apply F64Facts.of_Z_not_nan].
Qed.

(** The rows of a frame whose amounts were made numbers: the rows of the
    frame, each with its name and category and with an amount that is
    missing exactly when its cell reads as no number. *)
Lemma to_numeric_intro (conv : string -> float) (df : DataFrame cell)
    (r : row cell) :
  In r df ->
  exists v,
    In (Row (name r) v (category r)) (Pd.to_numeric conv df) /\
    Pd.isna v = Pd.isna (Pd.to_numeric_cell conv (amount r)).
Proof.
  intros Hr. eexists. split.
  - unfold Pd.to_numeric. cbn zeta. apply in_map_iff. exists r.
    split; [reflexivity|exact Hr].
  - apply isna_astype.
Qed.

Lemma to_numeric_elim (conv : string -> float) (df : DataFrame cell)
    (r' : row number) :
  In r' (Pd.to_numeric conv df) ->
  exists r,
    In r df /\ name r' = name r /\ category r' = category r /\
    Pd.isna (amount r') = Pd.isna (Pd.to_numeric_cell conv (amount r)).
Proof.
  unfold Pd.to_numeric. cbn zeta. rewrite in_map_iff.
  intros (r & <- & Hr). exists r. cbn [name amount category].
  split; [exact Hr|]. split; [reflexivity|]. split; [reflexivity|].
  apply isna_astype.
Qed.

(** In a float64 column every cell is a float. *)
Lemma to_numeric_float64 (conv : string -> float) (df : DataFrame cell)
    (r : row number) :
  Pd.dtype_of (map amount (Pd.to_numeric conv df)) = Pd.float64 ->
  In r (Pd.to_numeric conv df) -> exists x, amount r = Float x.
Proof.
  unfold Pd.to_numeric. cbn zeta.
  destruct (Pd.dtype_of (map (fun r => Pd.to_numeric_cell conv (amount r)) df))
    eqn:E.
  - intros H. exfalso. rewrite map_map in H. cbn [amount Pd.astype] in H.
    congruence.
  - intros _ Hr. apply in_map_iff in Hr. destruct Hr as (r0 & <- & _).
    cbn [amount Pd.astype]. eauto.
Qed.

Lemma pairwise_sum_short (fuel : nat) (a : list float) :
  (List.length a < 8)%nat ->
  Np.pairwise_sum fuel a = fold_left F64.add a F64.zero.
Proof.
  intros H. apply Nat.ltb_lt in H.
  destruct fuel; cbn [Np.pairwise_sum]; rewrite H; reflexivity.
Qed.

(** Fewer than eight floats are added one after the other. *)
Lemma sum_short (a : list float) :
  (List.length a < 8)%nat ->
  Np.sum a = F64.add F64.zero (fold_left F64.add a F64.zero).
Proof.
  intros H. unfold Np.sum. rewrite (pairwise_sum_short _ a H). reflexivity.
Qed.

Lemma pairwise_sum_block (fuel : nat) (a : list float) :
  (8 <= List.length a <= 128)%nat ->
  Np.pairwise_sum fuel a = Np.block_sum a.
Proof.
  intros [Hlo Hhi].
  assert (H8 : (List.length a <? 8)%nat = false) by (apply Nat.ltb_ge; lia).
  assert (H128 : (List.length a <=? 128)%nat = true)
    by (apply Nat.leb_le; lia).
  destruct fuel; cbn [Np.pairwise_sum]; rewrite H8, H128; reflexivity.
Qed.

(** Eight to fifteen floats: the first eight are added up in pairs, then
    the others one after the other. *)
Lemma sum_one_block (x0 x1 x2 x3 x4 x5 x6 x7 : float) (rest : list float) :
  (List.length rest < 8)%nat ->
  Np.sum ([x0; x1; x2; x3; x4; x5; x6; x7] ++ rest)
  = F64.add F64.zero
      (fold_left F64.add rest
         (F64.add (F64.add (F64.add x0 x1) (F64.add x2 x3))
                  (F64.add (F64.add x4 x5) (F64.add x6 x7)))).
Proof.
  intros H. unfold Np.sum. f_equal.
  rewrite pairwise_sum_block by (rewrite length_app; cbn [List.length]; lia).
  unfold Np.block_sum. cbn [app firstn skipn List.length Np.accumulate].
  assert (H8 : (8 <=? List.length rest)%nat = false) by (apply Nat.leb_gt; lia).
  rewrite H8. reflexivity.
Qed.

(** A group whose cells are all there is added up whole. *)
Lemma group_sum_float64 (xs : list number) :
  (forall v, In v xs -> Pd.isna v = false) ->
  Pd.group_sum Pd.float64 xs = Float (Pd.compensated_sum (map to_float xs)).
Proof.
  intros H. cbn [Pd.group_sum]. rewrite filter_all; [reflexivity|].
  intros x Hx. apply in_map_iff in Hx. destruct Hx as (v & <- & Hv).
  rewrite (notna_to_float v (H v Hv)). reflexivity.
Qed.

Lemma dropna_complete (df : DataFrame number) (r : row number) :
  In r (Pd.dropna df) <->
  In r df /\ Pd.isna (amount r) = false /\
  name r <> None /\ category r <> None.
Proof.
  unfold Pd.dropna, Pd.complete_row, Pd.notna_text.
  rewrite filter_In.
  destruct (name r), (category r), (Pd.isna (amount r)); simpl;
    intuition congruence.
Qed.

Lemma dropna_amount_category_spec (df : DataFrame number)
    (r : row number) :
  In r (Pd.dropna_amount_category df) <->
  In r df /\ Pd.isna (amount r) = false /\ category r <> None.
Proof.
  unfold Pd.dropna_amount_category, Pd.amount_and_category, Pd.notna_text.
  rewrite filter_In.
  destruct (category r), (Pd.isna (amount r)); simpl;
    intuition congruence.
Qed.

Lemma dropna_amounts (df : DataFrame number) (v : number) :
  In v (map amount (Pd.dropna df)) -> Pd.isna v = false.
Proof.
  rewrite in_map_iff. intros (r & <- & Hr).
  apply dropna_complete in Hr. tauto.
Qed.

(** Sorting the keys permutes them. *)
Lemma insert_key_perm (k : string) (ks : list string) :
  Permutation (Pd.insert_key k ks) (k :: ks).
Proof.
  induction ks as [|k' ks IH]; simpl; [reflexivity|].
  destruct (String.leb k k'); [reflexivity|].
  rewrite IH. apply perm_swap.
Qed.

Lemma sort_keys_perm (ks : list string) : Permutation (Pd.sort_keys ks) ks.
Proof.
  induction ks as [|k ks IH]; simpl; [reflexivity|].
  rewrite insert_key_perm. apply perm_skip, IH.
Qed.

(** The keys of a grouped sum: each category of the frame, once. *)
Lemma groupby_keys (df : DataFrame number) :
  map fst (Pd.groupby_sum df)
  = Pd.sort_keys (nodup string_dec (Pd.categories df)).
Proof.
  unfold Pd.groupby_sum. cbn zeta. rewrite map_map. simpl. apply map_id.
Qed.

Lemma groupby_keys_NoDup (df : DataFrame number) :
  NoDup (map fst (Pd.groupby_sum df)).
Proof.
  rewrite groupby_keys.
  apply (Permutation_NoDup (l := nodup string_dec (Pd.categories df))).
  - symmetry. apply sort_keys_perm.
  - apply NoDup_nodup.
Qed.

Lemma groupby_key_In (df : DataFrame number) (k : string) :
  In k (map fst (Pd.groupby_sum df)) <-> In k (Pd.categories df).
Proof.
  rewrite groupby_keys. split; intros H.
  - apply (Permutation_in _ (sort_keys_perm _)) in H.
    apply nodup_In in H. exact H.
  - apply (Permutation_in _ (Permutation_sym (sort_keys_perm _))).
    apply nodup_In. exact H.
Qed.

Lemma groupby_length (df : DataFrame number) :
  List.length (Pd.groupby_sum df)
  = List.length (nodup string_dec (Pd.categories df)).
Proof.
  rewrite <- (length_map fst), groupby_keys.
  apply Permutation_length, sort_keys_perm.
Qed.

(** Each entry of a grouped sum is the sum of its group, added as the
    dtype of the column has it. *)
Lemma groupby_total (df : DataFrame number) (k : string) (v : number) :
  In (k, v) (Pd.groupby_sum df) ->
  v = Pd.group_sum (Pd.dtype_of (map amount df)) (map amount (Pd.group k df)).
Proof.
  unfold Pd.groupby_sum. cbn zeta. rewrite in_map_iff.
  intros (k' & Heq & _). congruence.
Qed.

(** The totals of a grouped sum are all int64 or all floats. *)
Lemma groupby_uniform (df : DataFrame number) :
  Forall (fun kv => Pd.is_int64 (snd kv) = true) (Pd.groupby_sum df) \/
  Forall (fun kv => Pd.is_float (snd kv) = true) (Pd.groupby_sum df).
Proof.
  unfold Pd.groupby_sum. cbn zeta.
  destruct (Pd.dtype_of (map amount df)); [left|right];
    apply Forall_forall; intros kv Hkv; apply in_map_iff in Hkv;
    destruct Hkv as (k & <- & _); reflexivity.
Qed.

Lemma categories_In (df : DataFrame number) (k : string) :
  In k (Pd.categories df) <-> exists r, In r df /\ category r = Some k.
Proof.
  unfold Pd.categories. rewrite in_flat_map. split.
  - intros (r & Hr & Hk). exists r. split; [exact Hr|].
    destruct (category r); simpl in Hk; [|contradiction].
    destruct Hk as [->|[]]. reflexivity.
  - intros (r & Hr & Hk). exists r. split; [exact Hr|].
    rewrite Hk. simpl. auto.
Qed.

Lemma group_cons_same (r : row number) (c : string) (df : DataFrame number) :
  category r = Some c -> Pd.group c (r :: df) = r :: Pd.group c df.
Proof.
  intros Hc. unfold Pd.group. cbn [filter].
  unfold Pd.has_category at 1. rewrite Hc, String.eqb_refl. reflexivity.
Qed.

Lemma group_cons_other (r : row number) (c k : string)
    (df : DataFrame number) :
  category r = Some c -> k <> c -> Pd.group k (r :: df) = Pd.group k df.
Proof.
  intros Hc Hk. unfold Pd.group. cbn [filter].
  unfold Pd.has_category at 1. rewrite Hc.
  destruct (String.eqb c k) eqn:E; [|reflexivity].
  apply String.eqb_eq in E. congruence.
Qed.

Lemma groups_cons_absent (r : row number) (c : string)
    (df : DataFrame number) (ks : list string) :
  category r = Some c -> ~ In c ks ->
  flat_map (fun k => Pd.group k (r :: df)) ks
  = flat_map (fun k => Pd.group k df) ks.
Proof.
  intros Hc. induction ks as [|k ks IH]; intros Hin; [reflexivity|].
  cbn [flat_map].
  rewrite (group_cons_other r c k df Hc), IH; [reflexivity| |];
    intros H; apply Hin; [right; exact H|left; exact H].
Qed.

(** Adding a row with category [c] to the frame adds it to the group of
    [c] and to no other group. *)
Lemma groups_cons (r : row number) (c : string) (df : DataFrame number)
    (ks : list string) :
  category r = Some c -> NoDup ks -> In c ks ->
  Permutation (flat_map (fun k => Pd.group k (r :: df)) ks)
              (r :: flat_map (fun k => Pd.group k df) ks).
Proof.
  intros Hc. induction ks as [|k ks IH]; intros Hnd Hin; [destruct Hin|].
  inversion Hnd as [|? ? Hk Hnd']; subst.
  cbn [flat_map].
  destruct (string_dec k c) as [->|Hne].
  - rewrite (group_cons_same r c df Hc), (groups_cons_absent r c df ks Hc Hk).
    reflexivity.
  - destruct Hin as [Heq|Hin]; [contradiction|].
    rewrite (group_cons_other r c k df Hc Hne), (IH Hnd' Hin).
    symmetry. apply Permutation_middle.
Qed.

Lemma total_of_app {A : Type} (w : A -> Z) (l1 l2 : list A) :
  total_of w (l1 ++ l2) = total_of w l1 + total_of w l2.
Proof.
  unfold total_of. induction l1 as [|x l1 IH]; simpl; [reflexivity|].
  rewrite IH. lia.
Qed.

Lemma total_of_perm {A : Type} (w : A -> Z) (l1 l2 : list A) :
  Permutation l1 l2 -> total_of w l1 = total_of w l2.
Proof.
  unfold total_of. induction 1; simpl; lia.
Qed.

Lemma total_of_flat_map {A B : Type} (w : B -> Z) (g : A -> list B)
    (l : list A) :
  total_of w (flat_map g l) = total_of (fun x => total_of w (g x)) l.
Proof.
  induction l as [|x l IH]; [reflexivity|].
  cbn [flat_map]. rewrite total_of_app, IH. reflexivity.
Qed.

Lemma total_of_ext_in {A : Type} (w w' : A -> Z) (l : list A) :
  (forall x, In x l -> w x = w' x) -> total_of w l = total_of w' l.
Proof.
  intros H. unfold total_of. rewrite (map_ext_in w w' l H). reflexivity.
Qed.

Lemma total_of_map {A B : Type} (f : A -> B) (w : B -> Z) (l : list A) :
  total_of w (map f l) = total_of (fun x => w (f x)) l.
Proof.
  unfold total_of. rewrite map_map. reflexivity.
Qed.

(** The groups of a frame whose rows all have a category, taken over
    distinct keys that cover the categories, hold every row once. *)
Lemma groups_partition (df : DataFrame number) (ks : list string) :
  NoDup ks ->
  (forall r, In r df -> exists c, category r = Some c /\ In c ks) ->
  Permutation (flat_map (fun k => Pd.group k df) ks) df.
Proof.
  intros Hnd. induction df as [|r df IH]; intros Hcat.
  - clear. induction ks as [|k ks IH]; simpl; [reflexivity|exact IH].
  - destruct (Hcat r (or_introl eq_refl)) as (c & Hc & Hin).
    rewrite (groups_cons r c df ks Hc Hnd Hin).
    apply perm_skip, IH. intros r' Hr'. apply Hcat. right. exact Hr'.
Qed.

End PdFacts.

(* ================================================================== *)
(** ** Facts about the descending sort *)
(* ================================================================== *)

Module SortFacts.

Definition whole (x : string * number) : Prop := Pd.is_int64 (snd x) = true.
Definition floating (x : string * number) : Prop := Pd.is_float (snd x) = true.

Lemma ge_trans (a b c : float) :
  F64.is_nan b = false ->
  F64.ltb a b = false -> F64.ltb b c = false -> F64.ltb a c = false.
Proof.
  unfold F64.ltb, SFltb.
  destruct a as [sa|sa| |sa ma ea], b as [sb|sb| |sb mb eb],
    c as [sc|sc| |sc mc ec]; simpl; try discriminate; try reflexivity;
    intros _;
    try (destruct sa; simpl; try discriminate; try reflexivity);
    try (destruct sb; simpl; try discriminate; try reflexivity);
    try (destruct sc; simpl; try discriminate; try reflexivity).
  all: fold (Pos.compare ma mb); fold (Pos.compare mb mc);
    fold (Pos.compare ma mc).
  all: destruct (Z.compare_spec ea eb), (Z.compare_spec eb ec),
    (Z.compare_spec ea ec); simpl; try discriminate; try reflexivity;
    try lia.
  all: destruct (Pos.compare_spec ma mb), (Pos.compare_spec mb mc),
    (Pos.compare_spec ma mc); simpl; try discriminate; try reflexivity;
    try lia.
Qed.

(** Among floats, and among whole numbers, the order of the bars is
    transitive. *)
Lemma desc_pair_trans_floating (x y z : string * number) :
  floating x -> floating y -> floating z ->
  desc_pair x y -> desc_pair y z -> desc_pair x z.
Proof.
  unfold floating, desc_pair, Pd.desc.
  destruct x as [kx [a|a|a]], y as [ky [b|b|b]], z as [kz [c|c|c]];
    cbn [snd Pd.is_float]; try discriminate. intros _ _ _.
  unfold py_lt, py_gt, F64.gtb. cbn [to_float Pd.isna].
  fold (F64.ltb a b). fold (F64.ltb b c). fold (F64.ltb a c).
  destruct (F64.is_nan c) eqn:Hc; [reflexivity|].
  destruct (F64.is_nan b) eqn:Hb; simpl; [discriminate|].
  destruct (F64.is_nan a); simpl; [discriminate|].
  rewrite !negb_true_iff. intros Hab Hbc.
  exact (ge_trans _ _ _ Hb Hab Hbc).
Qed.

Lemma desc_pair_trans_whole (x y z : string * number) :
  whole x -> whole y -> whole z ->
  desc_pair x y -> desc_pair y z -> desc_pair x z.
Proof.
  unfold whole, desc_pair, Pd.desc.
  destruct x as [kx [a|a|a]], y as [ky [b|b|b]], z as [kz [c|c|c]];
    cbn [snd Pd.is_int64]; try discriminate. intros _ _ _.
  unfold py_lt, py_gt. cbn [Pd.isna negb orb andb].
  rewrite !negb_true_iff, !Z.ltb_ge. lia.
Qed.

Lemma desc_pair_not_nan (x y : string * number) :
  not_nan x -> not_nan y ->
  (desc_pair x y <-> py_lt (snd x) (snd y) = false).
Proof.
  unfold not_nan, desc_pair, Pd.desc. intros -> ->. simpl.
  apply negb_true_iff.
Qed.

Lemma insert_desc_perm (x : string * number) (l : list (string * number)) :
  Permutation (Pd.insert_desc x l) (x :: l).
Proof.
  induction l as [|y l IH]; simpl; [reflexivity|].
  destruct (py_lt (snd x) (snd y)); [|reflexivity].
  rewrite IH. apply perm_swap.
Qed.

Lemma insertion_perm (l : list (string * number)) :
  Permutation (fold_right Pd.insert_desc [] l) l.
Proof.
  induction l as [|x l IH]; simpl; [reflexivity|].
  rewrite insert_desc_perm. apply perm_skip, IH.
Qed.

Lemma insert_desc_HdRel (y x : string * number) (l : list (string * number)) :
  desc_pair y x -> HdRel desc_pair y l ->
  HdRel desc_pair y (Pd.insert_desc x l).
Proof.
  intros Hyx Hl. destruct l as [|z l]; simpl; [constructor; exact Hyx|].
  inversion Hl; subst.
  destruct (py_lt (snd x) (snd z)); constructor; assumption.
Qed.

Lemma insert_desc_sorted (x : string * number) (l : list (string * number)) :
  not_nan x -> Forall not_nan l ->
  Sorted desc_pair l -> Sorted desc_pair (Pd.insert_desc x l).
Proof.
  intros Hx Hnn Hs. induction l as [|y l IH]; simpl.
  - repeat constructor.
  - inversion Hnn as [|? ? Hy Hnn']; subst.
    inversion Hs as [|? ? Hs' Hhd]; subst.
    destruct (py_lt (snd x) (snd y)) eqn:E.
    + constructor; [apply IH; assumption|].
      apply insert_desc_HdRel; [|exact Hhd].
      apply (desc_pair_not_nan y x Hy Hx).
      apply NumberFacts.py_lt_asym. exact E.
    + constructor; [exact Hs|]. constructor.
      apply (desc_pair_not_nan x y Hx Hy). exact E.
Qed.

Lemma insertion_sorted (l : list (string * number)) :
  Forall not_nan l -> Sorted desc_pair (fold_right Pd.insert_desc [] l).
Proof.
  induction l as [|x l IH]; simpl; intros Hnn; [constructor|].
  inversion Hnn as [|? ? Hx Hnn']; subst.
  apply insert_desc_sorted; [exact Hx| |apply IH; exact Hnn'].
  apply (Permutation_Forall (Permutation_sym (insertion_perm l))).
  exact Hnn'.
Qed.

(** A sorted list is sorted throughout when the order is transitive on
    its entries. *)
Lemma Sorted_StronglySorted_on {A : Type} (P : A -> Prop) (R : A -> A -> Prop)
    (l : list A) :
  (forall x y z, P x -> P y -> P z -> R x y -> R y z -> R x z) ->
  Forall P l -> Sorted R l -> StronglySorted R l.
Proof.
  intros Htrans Hall Hs. induction Hs as [|a l Hs IH Hhd]; [constructor|].
  inversion Hall as [|? ? Pa Hall']; subst.
  specialize (IH Hall'). constructor; [exact IH|].
  destruct Hhd as [|b l Hab]; [constructor|].
  inversion IH as [|? ? _ Hb]; subst.
  inversion Hall' as [|? ? Pb Hall'']; subst.
  constructor; [exact Hab|].
  rewrite Forall_forall in Hb, Hall'' |- *.
  intros c Hc. exact (Htrans a b c Pa Pb (Hall'' c Hc) Hab (Hb c Hc)).
Qed.

Lemma StronglySorted_app {A : Type} (R : A -> A -> Prop) (l1 l2 : list A) :
  StronglySorted R l1 -> StronglySorted R l2 ->
  (forall a b, In a l1 -> In b l2 -> R a b) ->
  StronglySorted R (l1 ++ l2).
Proof.
  intros H1 H2 Hcross. induction H1 as [|a l1 H1 IH Hall]; simpl.
  - exact H2.
  - constructor.
    + apply IH. intros x y Hx Hy. apply Hcross; [right; exact Hx|exact Hy].
    + apply Forall_app. split; [exact Hall|].
      apply Forall_forall. intros b Hb. apply Hcross; [left; reflexivity|].
      exact Hb.
Qed.

Lemma all_nan_sorted (l : list (string * number)) :
  Forall (fun x => Pd.isna (snd x) = true) l ->
  StronglySorted desc_pair l.
Proof.
  induction 1 as [|x l Hx Hl IH]; constructor; [exact IH|].
  apply Forall_forall. intros y Hy.
  rewrite Forall_forall in Hl. unfold desc_pair, Pd.desc.
  rewrite (Hl y Hy). reflexivity.
Qed.

Lemma split_perm {A : Type} (p : A -> bool) (l : list A) :
  Permutation (filter (fun x => negb (p x)) l ++ filter p l) l.
Proof.
  induction l as [|x l IH]; simpl; [reflexivity|].
  destruct (p x); simpl.
  - rewrite <- Permutation_middle. apply perm_skip, IH.
  - apply perm_skip, IH.
Qed.

(** The sorted series holds the entries of the series, each once. *)
Lemma sort_values_desc_perm (s : list (string * number)) :
  Permutation (Pd.sort_values_desc s) s.
Proof.
  unfold Pd.sort_values_desc.
  rewrite insertion_perm.
  apply (split_perm (fun kv => Pd.isna (snd kv))).
Qed.

Lemma sorted_numbers (P : string * number -> Prop)
    (s : list (string * number)) :
  (forall x y z, P x -> P y -> P z ->
     desc_pair x y -> desc_pair y z -> desc_pair x z) ->
  Forall P s ->
  StronglySorted desc_pair
    (fold_right Pd.insert_desc []
       (filter (fun kv => negb (Pd.isna (snd kv))) s)).
Proof.
  intros Htrans Hall.
  apply (Sorted_StronglySorted_on P); [exact Htrans| |].
  - apply (Permutation_Forall (Permutation_sym (insertion_perm _))).
    apply Forall_forall. intros x Hx. apply filter_In in Hx.
    rewrite Forall_forall in Hall. apply Hall. tauto.
  - apply insertion_sorted. apply Forall_forall. intros x Hx.
    apply filter_In in Hx. destruct Hx as [_ Hx].
    apply negb_true_iff in Hx. exact Hx.
Qed.

(** In the sorted series of a column of one dtype no entry is below a
    later one, and the NaN entries come last. *)
Lemma sort_values_desc_sorted (s : list (string * number)) :
  Forall whole s \/ Forall floating s ->
  StronglySorted desc_pair (Pd.sort_values_desc s).
Proof.
  intros Hs. unfold Pd.sort_values_desc. apply StronglySorted_app.
  - destruct Hs as [Hs|Hs].
    + exact (sorted_numbers whole s desc_pair_trans_whole Hs).
    + exact (sorted_numbers floating s desc_pair_trans_floating Hs).
  - apply all_nan_sorted. apply Forall_forall. intros x Hx.
    apply filter_In in Hx. tauto.
  - intros a b _ Hb. apply filter_In in Hb. destruct Hb as [_ Hb].
    unfold desc_pair, Pd.desc. rewrite Hb. reflexivity.
Qed.

(** The sorted totals of a grouped sum. *)
Lemma sorted_groupby (df : DataFrame number) :
  StronglySorted desc_pair (Pd.sort_values_desc (Pd.groupby_sum df)).
Proof.
  apply sort_values_desc_sorted, PdFacts.groupby_uniform.
Qed.

End SortFacts.

(* ================================================================== *)
(** ** The aggregator *)
(* ================================================================== *)

Section AggregatorProperties.

Context {pandas : Pandas}.

(** What the helper returns for a store whose text the reader accepts. *)
Lemma get_expense_data_read (content : string) (df : DataFrame cell)
    (now : datetime) :
  read_csv content = Ok df ->
  get_expense_data (Some content) now =
  Ok (let total := Pd.Series_sum (amount_dtype df) (map amount (kept df)) in
      let remaining := py_sub (Int BUDGET) total in
      Snapshot (kept df) (Pd.groupby_sum (kept df)) total remaining
        (if py_gt remaining (Int 0)
         then py_truediv remaining (Int (remaining_days now))
         else Int 0)
        (Z.of_nat (List.length (kept df)))).
Proof.
  intros Hread. unfold get_expense_data. rewrite Hread. reflexivity.
Qed.

(** A readable store always yields a snapshot. *)
Lemma get_expense_data_returns (fs : store) (now : datetime) :
  readable fs -> exists s, get_expense_data fs now = Ok s.
Proof.
  destruct fs as [content|]; unfold readable.
  - intros (df & Hdf). rewrite (get_expense_data_read content df now Hdf).
    eauto.
  - intros _. eexists. reflexivity.
Qed.

Lemma kept_complete (df : DataFrame cell) :
  kept df =
  filter (fun r => Pd.notna_text (name r) && Pd.notna_text (category r))
         (parsing_amounts df).
Proof.
  unfold kept, Pd.dropna, parsing_amounts. rewrite PdFacts.filter_twice.
  apply filter_ext. intros r. unfold Pd.complete_row.
  destruct (Pd.notna_text (name r)), (Pd.isna (amount r)),
    (Pd.notna_text (category r)); reflexivity.
Qed.

(** The records kept from an int64 column hold int64 amounts. *)
Lemma kept_int64 (df : DataFrame cell) :
  amount_dtype df = Pd.int64 ->
  Pd.dtype_of (map amount (kept df)) = Pd.int64.
Proof.
  apply PdFacts.dtype_int64_incl. intros v Hv.
  apply in_map_iff in Hv. destruct Hv as (r & <- & Hr).
  apply PdFacts.dropna_complete in Hr. apply in_map. tauto.
Qed.

(** The total of the records kept from an int64 column and from a short
    float64 column. *)
Lemma total_int64 (xs : list number) :
  Pd.Series_sum Pd.int64 xs
  = Int64 (Int64.wrap (total_of Pd.int_value xs)).
Proof. reflexivity. Qed.

Lemma total_float64 (df : DataFrame cell) :
  Pd.Series_sum Pd.float64 (map amount (kept df))
  = Float (Np.sum (map (fun r => to_float (amount r)) (kept df))).
Proof.
  unfold Pd.Series_sum.
  rewrite PdFacts.fill_notna by apply PdFacts.dropna_amounts.
  rewrite map_map. reflexivity.
Qed.

(** The records kept from a float64 column, when there are any, make a
    float64 column. *)
Lemma kept_float64 (df : DataFrame cell) (r : row number) :
  amount_dtype df = Pd.float64 -> In r (kept df) ->
  Pd.dtype_of (map amount (kept df)) = Pd.float64.
Proof.
  intros Hd Hr. pose proof Hr as Hin.
  apply PdFacts.dropna_complete in Hin. destruct Hin as (Hin & _).
  destruct (PdFacts.to_numeric_float64 _ df r Hd Hin) as (x & Hx).
  apply (PdFacts.dtype_float64 _ x). rewrite <- Hx. apply in_map. exact Hr.
Qed.

(** C1 (amended): for every record set read from the store, total_spent
    is the sum of the amounts, and total_expenses the count, of exactly
    the records whose amount reads as a number and whose name and
    category are both present; they are the records returned, and none of
    them has an amount that failed to parse.  The sum is the one pandas
    computes for the column: of whole numbers in 64-bit integers, exact
    up to wrap-around; of floats in binary64, one after the other from
    0.0 when there are fewer than eight, the first eight in pairs and
    then the others when there are eight to fifteen, and in numpy's
    blocks when there are more. *)
Theorem totals_over_complete_records (content : string)
    (df : DataFrame cell) (now : datetime) :
  read_csv content = Ok df ->
  exists s,
    get_expense_data (Some content) now = Ok s /\
    let complete :=
      filter (fun r => Pd.notna_text (name r) && Pd.notna_text (category r))
             (parsing_amounts df) in
    expenses_list s = complete /\
    total_spent s = Pd.Series_sum (amount_dtype df) (map amount complete) /\
    total_expenses s = Z.of_nat (List.length complete) /\
    (forall r, In r (expenses_list s) -> Pd.isna (amount r) = false) /\
    (amount_dtype df = Pd.int64 ->
     total_spent s
     = Int64 (Int64.wrap (total_of (fun r => Pd.int_value (amount r))
                                   complete))) /\
    (amount_dtype df = Pd.float64 ->
     (List.length complete < 8)%nat ->
     total_spent s
     = Float (F64.add F64.zero
                (fold_left F64.add
                   (map (fun r => to_float (amount r)) complete) F64.zero))) /\
    (amount_dtype df = Pd.float64 ->
     forall (x0 x1 x2 x3 x4 x5 x6 x7 : float) (rest : list float),
       map (fun r => to_float (amount r)) complete
       = ([x0; x1; x2; x3; x4; x5; x6; x7] ++ rest)%list ->
       (List.length rest < 8)%nat ->
       total_spent s
       = Float (F64.add F64.zero
                  (fold_left F64.add rest
                     (F64.add (F64.add (F64.add x0 x1) (F64.add x2 x3))
                              (F64.add (F64.add x4 x5) (F64.add x6 x7)))))).
Proof.
  intros Hread. eexists. split.
  - apply (get_expense_data_read content df now Hread).
  - cbn zeta. cbn [expenses_list total_spent total_expenses].
    rewrite <- kept_complete.
    split; [reflexivity|]. split; [reflexivity|]. split; [reflexivity|].
    split; [|split; [|split]].
    + intros r Hr. apply PdFacts.dropna_complete in Hr. tauto.
    + intros ->. rewrite total_int64, PdFacts.total_of_map. reflexivity.
    + intros -> Hshort. rewrite total_float64, PdFacts.sum_short;
        [reflexivity|]. rewrite length_map. exact Hshort.
    + intros -> x0 x1 x2 x3 x4 x5 x6 x7 rest Hamounts Hrest.
      rewrite total_float64, Hamounts.
      rewrite (PdFacts.sum_one_block _ _ _ _ _ _ _ _ _ Hrest).
      reflexivity.
Qed.

(** C2 (amended): for every record set read from a store that exists and
    every current date, remaining_days is max(1, days_in_month - day),
    daily_budget is remaining_budget / remaining_days when
    remaining_budget > 0 and 0 otherwise; when the store is absent,
    daily_budget is 0 although remaining_budget is the whole budget; and
    for every store, read or absent, daily_budget is never negative and
    is 0 whenever remaining_budget <= 0. *)
Theorem daily_budget_formula (fs : store) (now : datetime) :
  readable fs ->
  exists s,
    get_expense_data fs now = Ok s /\
    (exists_ fs = true ->
     let remaining_days :=
       Z.max 1 (days_in_month (year now) (month now) - day now) in
     1 <= remaining_days /\
     daily_budget s =
     if py_gt (remaining_budget s) (Int 0)
     then py_truediv (remaining_budget s) (Int remaining_days)
     else Int 0) /\
    (exists_ fs = false ->
     daily_budget s = Int 0 /\ remaining_budget s = Int BUDGET /\
     py_gt (remaining_budget s) (Int 0) = true) /\
    py_lt (daily_budget s) (Int 0) = false /\
    (py_le (remaining_budget s) (Int 0) = true -> daily_budget s = Int 0).
Proof.
  destruct fs as [content|]; unfold readable.
  - intros (df & Hread). eexists. split.
    { apply (get_expense_data_read content df now Hread). }
    cbn zeta. cbn [daily_budget remaining_budget exists_].
    split; [intros _; split; [lia|reflexivity]|].
    split; [discriminate|].
    assert (Hdays : F64.sign_bit (F64.of_Z (remaining_days now)) = false)
      by (apply F64Facts.of_Z_nonneg; unfold remaining_days; lia).
    destruct (Pd.Series_sum (amount_dtype df) (map amount (kept df)))
      as [n|x|n] eqn:Htotal.
    + unfold Pd.Series_sum in Htotal.
      destruct (amount_dtype df); discriminate Htotal.
    + set (r := F64.sub (F64.of_Z BUDGET) x).
      change (py_sub (Int BUDGET) (Float x)) with (Float r).
      change (py_gt (Float r) (Int 0)) with (F64.gtb r F64.zero).
      change (py_le (Float r) (Int 0)) with (F64.leb r F64.zero).
      split.
      * destruct (F64.gtb r F64.zero) eqn:Hpos; [|reflexivity].
        change (F64.ltb (F64.div r (F64.of_Z (remaining_days now))) F64.zero
                = false).
        apply F64Facts.nonneg_not_below_zero, F64Facts.div_sign;
          [apply F64Facts.gt_zero_sign, Hpos|exact Hdays].
      * intros Hle. rewrite (F64Facts.le_zero_not_above r Hle). reflexivity.
    + set (r := Int64.wrap (BUDGET - n)).
      change (py_sub (Int BUDGET) (Int64 n)) with (Int64 r).
      change (py_gt (Int64 r) (Int 0)) with (0 <? r).
      change (py_le (Int64 r) (Int 0)) with (r <=? 0).
      split.
      * destruct (0 <? r) eqn:Hpos; [|reflexivity].
        change (F64.ltb (F64.div (F64.of_Z r) (F64.of_Z (remaining_days now)))
                  F64.zero = false).
        apply F64Facts.nonneg_not_below_zero, F64Facts.div_sign;
          [|exact Hdays].
        apply F64Facts.of_Z_nonneg. apply Z.ltb_lt in Hpos. lia.
      * intros Hle. apply Z.leb_le in Hle.
        destruct (0 <? r) eqn:Hpos; [|reflexivity].
        apply Z.ltb_lt in Hpos. lia.
  - intros _. eexists. split; [reflexivity|].
    cbn. repeat split; discriminate.
Qed.

(** The groups of the category totals, seen through their keys. *)
Lemma flat_map_keys {K V B : Type} (g : K -> list B) (l : list (K * V)) :
  flat_map (fun kv => g (fst kv)) l = flat_map g (map fst l).
Proof.
  induction l as [|kv l IH]; simpl; [reflexivity|].
  rewrite IH. reflexivity.
Qed.

(** The groups of the records kept hold every record kept once. *)
Lemma kept_partition (df : DataFrame cell) :
  Permutation
    (flat_map (fun kv => Pd.group (fst kv) (kept df))
              (Pd.groupby_sum (kept df)))
    (kept df).
Proof.
  rewrite (flat_map_keys (fun k => Pd.group k (kept df))).
  apply PdFacts.groups_partition.
  - apply PdFacts.groupby_keys_NoDup.
  - intros r Hr. pose proof Hr as Hc.
    apply PdFacts.dropna_complete in Hc.
    destruct Hc as (_ & _ & _ & Hc).
    destruct (category r) as [c|] eqn:E; [|congruence].
    exists c. split; [reflexivity|].
    apply PdFacts.groupby_key_In, PdFacts.categories_In. eauto.
Qed.

(** C4 (amended): every valid record's amount is counted in exactly one
    category total: the categories are distinct and the groups of the
    valid records by category hold every valid record once, so that,
    added without rounding, the per-category sums of the amounts (of any
    integer measure of a record) add up to the sum over all valid
    records.  Each category total is the sum of the amounts of its group
    as pandas adds a group, and total_spent the sum of all valid amounts
    as pandas adds a column.  When the amounts are whole numbers both are
    exact in 64-bit integers, and the category totals add up to
    total_spent exactly (up to wrap-around).  When they are floats, a
    category total is the compensated binary64 sum of its group and
    total_spent numpy's binary64 sum of the column.  (The rounded
    category totals then need not add up to total_spent bit for bit: the
    sums round at different places.) *)
Theorem category_totals_partition (content : string) (df : DataFrame cell)
    (now : datetime) :
  read_csv content = Ok df ->
  exists s,
    get_expense_data (Some content) now = Ok s /\
    NoDup (map fst (category_totals s)) /\
    (forall k v, In (k, v) (category_totals s) ->
       v = Pd.group_sum (Pd.dtype_of (map amount (expenses_list s)))
                        (map amount (Pd.group k (expenses_list s)))) /\
    Permutation
      (flat_map (fun kv => Pd.group (fst kv) (expenses_list s))
                (category_totals s))
      (expenses_list s) /\
    (forall w : row number -> Z,
       total_of (fun kv => total_of w (Pd.group (fst kv) (expenses_list s)))
                (category_totals s)
       = total_of w (expenses_list s)) /\
    total_spent s
    = Pd.Series_sum (amount_dtype df) (map amount (expenses_list s)) /\
    (amount_dtype df = Pd.int64 ->
     (forall k v, In (k, v) (category_totals s) ->
        v = Int64 (Int64.wrap
                     (total_of (fun r => Pd.int_value (amount r))
                               (Pd.group k (expenses_list s))))) /\
     total_spent s
     = Int64 (Int64.wrap
                (total_of (fun kv => Pd.int_value (snd kv))
                          (category_totals s)))) /\
    (amount_dtype df = Pd.float64 ->
     (forall k v, In (k, v) (category_totals s) ->
        v = Float (Pd.compensated_sum
                     (map (fun r => to_float (amount r))
                          (Pd.group k (expenses_list s))))) /\
     total_spent s
     = Float (Np.sum (map (fun r => to_float (amount r))
                          (expenses_list s)))).
Proof.
  intros Hread. eexists. split.
  { apply (get_expense_data_read content df now Hread). }
  cbn zeta. cbn [category_totals expenses_list total_spent].
  pose proof (kept_partition df) as Hperm.
  assert (Hexact : forall w : row number -> Z,
            total_of (fun kv => total_of w (Pd.group (fst kv) (kept df)))
                     (Pd.groupby_sum (kept df))
            = total_of w (kept df)).
  { intros w.
    rewrite <- (PdFacts.total_of_flat_map w
                  (fun kv => Pd.group (fst kv) (kept df))).
    apply PdFacts.total_of_perm, Hperm. }
  split; [apply PdFacts.groupby_keys_NoDup|].
  split; [intros k v Hkv; exact (PdFacts.groupby_total _ k v Hkv)|].
  split; [exact Hperm|]. split; [exact Hexact|]. split; [reflexivity|].
  split; [|intros Hfloat; split].
  2: { intros k v Hkv. rewrite (PdFacts.groupby_total _ k v Hkv).
       assert (Hk : In k (Pd.categories (kept df))).
       { apply PdFacts.groupby_key_In, in_map_iff. exists (k, v). auto. }
       apply PdFacts.categories_In in Hk. destruct Hk as (r & Hr & _).
       rewrite (kept_float64 df r Hfloat Hr), PdFacts.group_sum_float64.
       - rewrite map_map. reflexivity.
       - intros x Hx. apply in_map_iff in Hx. destruct Hx as (r' & <- & Hr').
         apply filter_In in Hr'. destruct Hr' as [Hr' _].
         apply PdFacts.dropna_complete in Hr'. tauto. }
  2: { rewrite Hfloat. apply total_float64. }
  intros Hint.
  assert (Hgroup : forall k v, In (k, v) (Pd.groupby_sum (kept df)) ->
            v = Int64 (Int64.wrap
                         (total_of (fun r => Pd.int_value (amount r))
                                   (Pd.group k (kept df))))).
  { intros k v Hkv. rewrite (PdFacts.groupby_total _ k v Hkv).
    rewrite (kept_int64 df Hint). cbn [Pd.group_sum]. unfold Np.sum_int64.
    fold (total_of Pd.int_value (map amount (Pd.group k (kept df)))).
    rewrite PdFacts.total_of_map. reflexivity. }
  split; [exact Hgroup|].
  rewrite Hint, total_int64, PdFacts.total_of_map, <- Hexact.
  rewrite <- (Int64Facts.wrap_total_of
                (fun kv => total_of (fun r => Pd.int_value (amount r))
                                    (Pd.group (fst kv) (kept df)))).
  f_equal. f_equal. apply PdFacts.total_of_ext_in.
  intros [k v] Hkv. rewrite (Hgroup k v Hkv). reflexivity.
Qed.

(** C7: when the store is absent the helper returns the zeroed snapshot:
    no records, no categories, total_spent 0, total_expenses 0,
    remaining_budget the whole budget of 2000, daily_budget 0. *)
Theorem absent_store_zeroed (now : datetime) :
  exists s,
    get_expense_data None now = Ok s /\
    expenses_list s = [] /\
    category_totals s = [] /\
    total_spent s = Int 0 /\
    total_expenses s = 0 /\
    remaining_budget s = Int BUDGET /\
    BUDGET = 2000 /\
    daily_budget s = Int 0.
Proof.
  exists (Snapshot [] [] (Int 0) (Int BUDGET) (Int 0) 0).
  repeat split.
Qed.

(** C8: deleting the store when it exists leaves no store, hence no
    record, and the snapshot read after it has total_expenses 0 and no
    record. *)
Theorem clear_all_then_snapshot (content : string) (now : datetime) :
  fst (clear_all (Some content)) = None /\
  exists s,
    get_expense_data (fst (clear_all (Some content))) now = Ok s /\
    total_expenses s = 0 /\
    expenses_list s = [].
Proof.
  split; [reflexivity|].
  change (fst (clear_all (Some content))) with (@None string).
  eexists. split; [reflexivity|]. split; reflexivity.
Qed.

(** C9 (amended): two snapshots of an unmodified store agree on the
    records, the category totals, total_spent, remaining_budget and
    total_expenses (or fail alike), whatever the two dates; they agree
    on daily_budget too, so in every field, when both dates leave the
    same number of remaining days in their month. *)
Theorem snapshot_twice (fs : store) (first second : datetime) :
  on_result dateless (get_expense_data fs first)
  = on_result dateless (get_expense_data fs second) /\
  (remaining_days first = remaining_days second ->
   same_snapshot_twice fs first second).
Proof.
  unfold same_snapshot_twice.
  destruct fs as [content|]; [|split; reflexivity].
  unfold get_expense_data.
  destruct (read_csv content) as [df|e]; cbn [bind].
  - split; [reflexivity|]. intros Hdays. unfold remaining_days in Hdays.
    rewrite Hdays. reflexivity.
  - split; reflexivity.
Qed.

End AggregatorProperties.
(* ================================================================== *)
(** ** The chart renderer *)
(* ================================================================== *)

Lemma b64encode_nonempty (png : list byte) :
  png <> [] -> Base64.b64encode png <> "".
Proof.
  destruct png as [|a [|b [|c rest]]]; [congruence| | |]; intros _;
    simpl; discriminate.
Qed.

Section ChartProperties.

Context {pandas : Pandas} {matplotlib : Matplotlib}.

(** What the handler answers for a store whose text the reader accepts. *)
Lemma generate_chart_read (content : string) (df : DataFrame cell) :
  read_csv content = Ok df ->
  generate_chart (Some content) =
  if Pd.empty (chart_frame df)
  then (Error "No valid expenses found", 404)
  else
    match savefig_png (chart_bars (chart_frame df)) with
    | Ok png => (Chart (Base64.b64encode png), 200)
    | Raise e => (Error ("Error generating chart: " ++ e)%string, 500)
    end.
Proof.
  intros Hread. unfold generate_chart. rewrite Hread. cbn [bind].
  destruct (Pd.empty (chart_frame df)); [reflexivity|].
  destruct (savefig_png (chart_bars (chart_frame df))); reflexivity.
Qed.

Lemma chart_frame_In (df : DataFrame cell) (r : row number) :
  In r (chart_frame df) <->
  In r (Pd.to_numeric to_numeric_str df) /\
  Pd.isna (amount r) = false /\ category r <> None.
Proof.
  apply PdFacts.dropna_amount_category_spec.
Qed.

Lemma chart_frame_no_amount (df : DataFrame cell) :
  (forall r, In r df ->
     Pd.isna (Pd.to_numeric_cell to_numeric_str (amount r)) = true) ->
  chart_frame df = [].
Proof.
  intros Hnan. apply PdFacts.filter_none. intros r' Hr'.
  apply PdFacts.to_numeric_elim in Hr'.
  destruct Hr' as (r & Hr & _ & _ & Hna).
  unfold Pd.amount_and_category. rewrite Hna, (Hnan r Hr). reflexivity.
Qed.

(** C5: the chart renderer answers "not found" (404) when the store is
    absent; it answers "not found" when the store is read and every row
    has an amount that is no number; and when the store is read and has
    at least one row with a numeric amount and a category, it draws one
    bar per distinct category of those rows, the bars being the category
    totals sorted descending (NaN totals last), and, the renderer having
    produced its PNG bytes, answers 200 with their non-empty base64
    text. *)
Theorem chart_renderer_outcomes :
  generate_chart None = (Error "No expenses found", 404) /\
  (forall content df,
     read_csv content = Ok df ->
     (forall r, In r df ->
        Pd.isna (Pd.to_numeric_cell to_numeric_str (amount r)) = true) ->
     generate_chart (Some content) = (Error "No valid expenses found", 404)) /\
  (forall content df png,
     read_csv content = Ok df ->
     (exists r, In r df /\
        Pd.isna (Pd.to_numeric_cell to_numeric_str (amount r)) = false /\
        category r <> None) ->
     let bars := chart_bars (chart_frame df) in
     savefig_png bars = Ok png ->
     png <> [] ->
     generate_chart (Some content) = (Chart (Base64.b64encode png), 200) /\
     Base64.b64encode png <> "" /\
     List.length bars
     = List.length (nodup string_dec (Pd.categories (chart_frame df))) /\
     Permutation bars (Pd.groupby_sum (chart_frame df)) /\
     StronglySorted desc_pair bars).
Proof.
  split; [reflexivity|]. split.
  - intros content df Hread Hnan.
    rewrite (generate_chart_read content df Hread).
    rewrite (chart_frame_no_amount df Hnan). reflexivity.
  - intros content df png Hread (r & Hr & Hnum & Hcat) bars Hpng Hne.
    destruct (PdFacts.to_numeric_intro to_numeric_str df r Hr)
      as (v & Hv & Hna).
    assert (Hin : In (Row (name r) v (category r)) (chart_frame df)).
    { apply chart_frame_In. split; [exact Hv|].
      cbn [amount category]. rewrite Hna. split; assumption. }
    rewrite (generate_chart_read content df Hread).
    destruct (chart_frame df) as [|r0 rows] eqn:Hframe; [destruct Hin|].
    cbn [Pd.empty]. fold bars. rewrite Hpng.
    split; [reflexivity|]. split; [exact (b64encode_nonempty png Hne)|].
    split; [|split].
    + unfold bars, chart_bars.
      rewrite (Permutation_length (SortFacts.sort_values_desc_perm _)).
      apply PdFacts.groupby_length.
    + apply SortFacts.sort_values_desc_perm.
    + apply SortFacts.sorted_groupby.
Qed.

End ChartProperties.

(* ================================================================== *)
(** ** Submission *)
(* ================================================================== *)

Section SubmissionProperties.

Context {python : PyFloat}.

(** C6: a submission whose amount string does not parse as a float is
    rejected as a validation failure before any write: the store, its
    existence included, is exactly as it was, and the message flashed is
    the error 'Please enter a valid amount!'. *)
Theorem add_expense_rejects (fs : store) (f : form) :
  py_float (form_amount f) = None ->
  add_expense fs f = (fs, ("Please enter a valid amount!", "error")) /\
  fst (add_expense fs f) = fs /\
  exists_ (fst (add_expense fs f)) = exists_ fs.
Proof.
  intros Hbad.
  assert (H : add_expense fs f = (fs, ("Please enter a valid amount!", "error"))).
  { unfold add_expense. rewrite Hbad. reflexivity. }
  rewrite H. repeat split.
Qed.

(** A submission that parses is written as one more line at the end of
    the store, which exists afterwards. *)
Lemma add_expense_appends (fs : store) (f : form) (a : float) :
  py_float (form_amount f) = Some a ->
  fst (add_expense fs f) =
  Some ((match fs with Some content => content | None => "" end) ++
        form_name f ++ "," ++ Text.repr_float a ++ "," ++
        form_category f ++ Text.newline)%string.
Proof.
  intros Hok. unfold add_expense. rewrite Hok.
  destruct fs as [content|]; reflexivity.
Qed.

End SubmissionProperties.

(* ================================================================== *)
(** ** The claims on concrete stores *)
(* ================================================================== *)

(** The scenario of the specification: two records, budget 2000. *)
Example coffee_and_bus_snapshot :
  exists s,
    @get_expense_data plain_pandas (Some Examples.coffee_and_bus)
      Examples.jan29 = Ok s /\
    Examples.show (total_spent s) = "6.5" /\
    Examples.show (remaining_budget s) = "1993.5" /\
    Examples.show_series (category_totals s)
    = [("Food", "4.5"); ("Transport", "2.0")] /\
    total_expenses s = 2.
Proof.
  eexists. split; [vm_compute; reflexivity|].
  repeat split.
Qed.

(** C1, as stated, fails: the store holds two records whose amounts read
    as numbers, 4.50 and 5.0, and the second has no name; the aggregator
    counts one record and a total of 4.5, not two records and 9.5. *)
Lemma nameless_record_is_dropped :
  ~ @totals_over_parsing_amounts plain_pandas Examples.nameless Examples.jan29.
Proof.
  unfold totals_over_parsing_amounts. intros H.
  edestruct H as [_ Hcount].
  - vm_compute. reflexivity.
  - vm_compute. reflexivity.
  - vm_compute in Hcount. discriminate Hcount.
Qed.

(** The amended C1 on the same store, a short column of floats: one
    record, 4.5 spent. *)
Lemma totals_over_complete_records_witness :
  exists s,
    @get_expense_data plain_pandas (Some Examples.nameless) Examples.jan29
    = Ok s /\
    Examples.show (total_spent s) = "4.5" /\
    total_expenses s = 1.
Proof.
  edestruct (@totals_over_complete_records plain_pandas Examples.nameless)
    with (now := Examples.jan29)
    as (s & Hs & Hlist & _ & Hcount & _ & _ & Hshort & _).
  { vm_compute. reflexivity. }
  exists s. split; [exact Hs|].
  rewrite Hshort, Hcount;
    [split; vm_compute; reflexivity|vm_compute; reflexivity|vm_compute; lia].
Defined.

(** Ten expenses of 0.1 are added in eight running sums and then the
    last two: total_spent is 1.0, where adding them one after the other
    would give 0.9999999999999999. *)
Example ten_dimes_total :
  exists s,
    @get_expense_data plain_pandas (Some Examples.ten_dimes) Examples.jan29
    = Ok s /\
    total_expenses s = 10 /\
    Examples.show (total_spent s) = "1.0" /\
    Text.repr_float
      (fold_left F64.add
         (map (fun r => to_float (amount r)) (expenses_list s)) F64.zero)
    = "0.9999999999999999".
Proof.
  eexists. split; [vm_compute; reflexivity|].
  repeat split.
Qed.

(** Whole amounts are added as 64-bit integers, and wrap around. *)
Example whole_amounts_snapshot :
  exists s,
    @get_expense_data plain_pandas (Some Examples.whole_amounts)
      Examples.jan29 = Ok s /\
    total_spent s = Int64 1300 /\
    remaining_budget s = Int64 700 /\
    Examples.show (daily_budget s) = "350.0" /\
    category_totals s = [("Housing", Int64 1260); ("Transport", Int64 40)].
Proof.
  eexists. split; [vm_compute; reflexivity|].
  repeat split.
Qed.

Example huge_amounts_wrap :
  exists s,
    @get_expense_data plain_pandas (Some Examples.huge_amounts)
      Examples.jan29 = Ok s /\
    total_spent s = Int64 (- 2 ^ 63) /\
    remaining_budget s = Int64 (- 2 ^ 63 + 2000) /\
    daily_budget s = Int 0.
Proof.
  eexists. split; [vm_compute; reflexivity|].
  repeat split.
Qed.

(** C2, as stated, fails: for the absent store remaining_budget is the
    whole budget, 2000 > 0, and daily_budget is 0, not 2000 divided by
    the two days that remain on 29 January. *)
Lemma absent_store_has_no_daily_budget :
  ~ @daily_budget_by_formula plain_pandas None Examples.jan29.
Proof.
  unfold daily_budget_by_formula. intros H.
  specialize (H _ eq_refl). vm_compute in H. discriminate H.
Qed.

Example absent_store_figures :
  exists s,
    @get_expense_data plain_pandas None Examples.jan29 = Ok s /\
    Examples.show (remaining_budget s) = "2000" /\
    Examples.show (daily_budget s) = "0" /\
    Examples.show (py_truediv (remaining_budget s)
                     (Int (remaining_days Examples.jan29))) = "1000.0".
Proof.
  eexists. split; [reflexivity|]. repeat split.
Qed.

(** The amended C2 on the scenario of the specification, two days before
    the end of January: 1993.5 / 2. *)
Lemma daily_budget_formula_witness :
  exists s,
    @get_expense_data plain_pandas (Some Examples.coffee_and_bus)
      Examples.jan29 = Ok s /\
    Examples.show (daily_budget s) = "996.75" /\
    py_lt (daily_budget s) (Int 0) = false.
Proof.
  destruct (@daily_budget_formula plain_pandas (Some Examples.coffee_and_bus)
              Examples.jan29) as (s & Hs & Hformula & _ & Hnonneg & _).
  { eexists. vm_compute. reflexivity. }
  exists s. split; [exact Hs|]. split; [|exact Hnonneg].
  destruct (Hformula eq_refl) as [_ Hdaily]. rewrite Hdaily.
  vm_compute in Hs. injection Hs as <-. vm_compute. reflexivity.
Defined.

(** C3: for every record set, remaining_budget is the fixed budget of
    2000 minus total_spent: the binary64 difference when total_spent is a
    float; the difference in 64-bit integers when the amounts are whole
    numbers, which is the exact difference unless that leaves the 64
    bits; 2000 - 0 for the absent store, the only one whose total_spent
    is a plain int.  The value may be negative: a single expense of
    2500.0 leaves -500.0, and one written as 2500 leaves the integer
    -500. *)
Theorem remaining_budget_is_budget_minus_spent :
  (forall (pandas : Pandas) (fs : store) (now : datetime),
     readable fs ->
     exists s,
       get_expense_data fs now = Ok s /\
       match total_spent s with
       | Float x => remaining_budget s = Float (F64.sub (F64.of_Z 2000) x)
       | Int64 n =>
         remaining_budget s = Int64 (Int64.wrap (2000 - n)) /\
         (Int64.in_range (2000 - n) = true ->
          remaining_budget s = Int64 (2000 - n))
       | Int n => fs = None /\ n = 0 /\ remaining_budget s = Int 2000
       end) /\
  (exists s,
     @get_expense_data plain_pandas (Some Examples.rent) Examples.jan29
     = Ok s /\
     Examples.show (total_spent s) = "2500.0" /\
     py_lt (remaining_budget s) (Int 0) = true /\
     Examples.show (remaining_budget s) = "-500.0") /\
  (exists s,
     @get_expense_data plain_pandas (Some Examples.rent_whole) Examples.jan29
     = Ok s /\
     total_spent s = Int64 2500 /\
     py_lt (remaining_budget s) (Int 0) = true /\
     remaining_budget s = Int64 (-500)).
Proof.
  split; [|split].
  - intros pandas fs now Hread. destruct fs as [content|].
    + destruct Hread as (df & Hdf). eexists. split.
      * apply (get_expense_data_read content df now Hdf).
      * cbn zeta. cbn [total_spent remaining_budget].
        destruct (amount_dtype df); cbn [Pd.Series_sum]; [|reflexivity].
        split; [reflexivity|]. intros Hrange.
        change (py_sub (Int BUDGET) (Int64 ?n))
          with (Int64 (Int64.wrap (2000 - n))).
        rewrite (Int64Facts.wrap_in_range _ Hrange). reflexivity.
    + eexists. split; [reflexivity|]. cbn. repeat split.
  - eexists. split; [vm_compute; reflexivity|].
    repeat split.
  - eexists. split; [vm_compute; reflexivity|].
    repeat split.
Qed.

(** C3 on the scenario of the specification: 2000 - 6.5 in binary64. *)
Lemma remaining_budget_witness :
  exists s x,
    @get_expense_data plain_pandas (Some Examples.coffee_and_bus)
      Examples.jan29 = Ok s /\
    total_spent s = Float x /\
    Text.repr_float x = "6.5" /\
    remaining_budget s = Float (F64.sub (F64.of_Z 2000) x) /\
    Examples.show (remaining_budget s) = "1993.5".
Proof.
  destruct (proj1 remaining_budget_is_budget_minus_spent plain_pandas
              (Some Examples.coffee_and_bus) Examples.jan29)
    as (s & Hs & Hrem).
  { eexists. vm_compute. reflexivity. }
  vm_compute in Hs. injection Hs as <-. cbn [total_spent] in Hrem.
  eexists. eexists. split; [vm_compute; reflexivity|].
  split; [reflexivity|]. split; [vm_compute; reflexivity|].
  split; [exact Hrem|]. vm_compute. reflexivity.
Defined.

(** C4, as stated, fails: with 0.1 in one category and 0.2 and 0.3 in
    another, total_spent is (0.1 + 0.2) + 0.3 = 0.6000000000000001 while
    the category totals 0.1 and 0.5 add up to 0.6. *)
Lemma small_amounts_do_not_add_up :
  ~ @category_totals_add_up plain_pandas Examples.small_amounts Examples.jan29.
Proof.
  unfold category_totals_add_up. intros H.
  destruct (@get_expense_data plain_pandas (Some Examples.small_amounts)
              Examples.jan29) as [s|e] eqn:Hs;
    vm_compute in Hs; [|discriminate Hs].
  specialize (H s eq_refl). injection Hs as <-.
  vm_compute in H. discriminate H.
Qed.

Example small_amounts_figures :
  exists s,
    @get_expense_data plain_pandas (Some Examples.small_amounts)
      Examples.jan29 = Ok s /\
    Examples.show (total_spent s) = "0.6000000000000001" /\
    Examples.show_series (category_totals s)
    = [("Drinks", "0.1"); ("Transport", "0.5")] /\
    Examples.show (sum_of_category_totals s) = "0.6".
Proof.
  eexists. split; [vm_compute; reflexivity|].
  repeat split.
Qed.

(** Nor do they add up in exact arithmetic: the exact values of the two
    category totals add up to less than the exact value of total_spent. *)
Example small_amounts_exact :
  exists s drinks transport total,
    @get_expense_data plain_pandas (Some Examples.small_amounts)
      Examples.jan29 = Ok s /\
    map (fun kv => F64.units (to_float (snd kv))) (category_totals s)
    = [Some drinks; Some transport] /\
    F64.units (to_float (total_spent s)) = Some total /\
    drinks + transport < total.
Proof.
  do 4 eexists. split; [vm_compute; reflexivity|].
  split; [vm_compute; reflexivity|].
  split; [vm_compute; reflexivity|].
  vm_compute. reflexivity.
Qed.

(** The same three amounts in one category: the compensated sum of the
    group is 0.6, the sum of the column 0.6000000000000001. *)
Example small_amounts_together_figures :
  exists s,
    @get_expense_data plain_pandas (Some Examples.small_amounts_together)
      Examples.jan29 = Ok s /\
    Examples.show (total_spent s) = "0.6000000000000001" /\
    Examples.show_series (category_totals s) = [("Drinks", "0.6")].
Proof.
  eexists. split; [vm_compute; reflexivity|].
  repeat split.
Qed.

(** The amended C4 on a store of whole amounts: the groups hold every
    record once and the category totals 1260 and 40 add up to the 1300
    spent. *)
Lemma category_totals_partition_witness :
  exists s,
    @get_expense_data plain_pandas (Some Examples.whole_amounts)
      Examples.jan29 = Ok s /\
    NoDup (map fst (category_totals s)) /\
    Permutation
      (flat_map (fun kv => Pd.group (fst kv) (expenses_list s))
                (category_totals s))
      (expenses_list s) /\
    total_spent s
    = Int64 (Int64.wrap (total_of (fun kv => Pd.int_value (snd kv))
                                  (category_totals s))) /\
    Examples.show_series (category_totals s)
    = [("Housing", "1260"); ("Transport", "40")] /\
    Examples.show (total_spent s) = "1300".
Proof.
  edestruct (@category_totals_partition plain_pandas Examples.whole_amounts)
    with (now := Examples.jan29)
    as (s & Hs & Hkeys & _ & Hperm & _ & _ & Hwhole & _).
  { vm_compute. reflexivity. }
  destruct Hwhole as [_ Htotal]; [vm_compute; reflexivity|].
  exists s. split; [exact Hs|]. split; [exact Hkeys|].
  split; [exact Hperm|]. split; [exact Htotal|].
  vm_compute in Hs. injection Hs as <-. split; vm_compute; reflexivity.
Defined.

(** C9, as stated, fails: the same store read on 29 January (two days
    left, daily_budget 996.75) and on 30 January (one day left,
    daily_budget 1993.5) gives two different snapshots. *)
Lemma later_date_changes_daily_budget :
  ~ @same_snapshot_twice plain_pandas (Some Examples.coffee_and_bus)
      Examples.jan29 Examples.jan30.
Proof.
  unfold same_snapshot_twice. intros H.
  assert (Hd : on_result daily_budget
                 (@get_expense_data plain_pandas
                    (Some Examples.coffee_and_bus) Examples.jan29)
               = on_result daily_budget
                 (@get_expense_data plain_pandas
                    (Some Examples.coffee_and_bus) Examples.jan30))
    by (rewrite H; reflexivity).
  vm_compute in Hd. discriminate Hd.
Qed.

Example daily_budget_by_date :
  on_result (fun s => Examples.show (daily_budget s))
    (@get_expense_data plain_pandas (Some Examples.coffee_and_bus)
       Examples.jan29) = Ok "996.75" /\
  on_result (fun s => Examples.show (daily_budget s))
    (@get_expense_data plain_pandas (Some Examples.coffee_and_bus)
       Examples.jan30) = Ok "1993.5".
Proof.
  split; vm_compute; reflexivity.
Qed.

(** The amended C9 on 30 and 31 January, which both leave one remaining
    day. *)
Lemma snapshot_twice_witness :
  remaining_days Examples.jan30 = remaining_days Examples.jan31 /\
  @same_snapshot_twice plain_pandas (Some Examples.coffee_and_bus)
    Examples.jan30 Examples.jan31.
Proof.
  split; [reflexivity|].
  apply (proj2 (@snapshot_twice plain_pandas (Some Examples.coffee_and_bus)
                  Examples.jan30 Examples.jan31)).
  reflexivity.
Defined.

(** C5 on the absent store, on a store with one unparseable amount, and
    on the store of three small amounts, whose two bars are Transport 0.5
    and Drinks 0.1. *)
Lemma chart_renderer_witness :
  @generate_chart plain_pandas plain_matplotlib None
  = (Error "No expenses found", 404) /\
  @generate_chart plain_pandas plain_matplotlib (Some Examples.unparseable)
  = (Error "No valid expenses found", 404) /\
  exists df img,
    Plain.read_csv Examples.small_amounts = Ok df /\
    @generate_chart plain_pandas plain_matplotlib (Some Examples.small_amounts)
    = (Chart img, 200) /\
    img <> "" /\
    Examples.show_series (chart_bars (@chart_frame plain_pandas df))
    = [("Transport", "0.5"); ("Drinks", "0.1")] /\
    StronglySorted desc_pair (chart_bars (@chart_frame plain_pandas df)).
Proof.
  destruct (@chart_renderer_outcomes plain_pandas plain_matplotlib)
    as (Habsent & Hnone & Hsome).
  split; [exact Habsent|]. split.
  - eapply Hnone.
    + vm_compute. reflexivity.
    + intros r [<-|[]]. vm_compute. reflexivity.
  - edestruct (Hsome Examples.small_amounts)
      as (Hresp & Himg & _ & _ & Hsorted).
    + vm_compute. reflexivity.
    + eexists. split; [left; reflexivity|].
      split; [vm_compute; reflexivity|discriminate].
    + vm_compute. reflexivity.
    + discriminate.
    + eexists. eexists. split; [vm_compute; reflexivity|].
      split; [exact Hresp|]. split; [exact Himg|].
      split; [vm_compute; reflexivity|exact Hsorted].
Defined.

(** C6 on the amount "abc", with the store present and with it absent. *)
Lemma add_expense_rejects_witness :
  @add_expense plain_float (Some Examples.coffee_and_bus)
    (Form "Lunch" "abc" "Food")
  = (Some Examples.coffee_and_bus, ("Please enter a valid amount!", "error")) /\
  fst (@add_expense plain_float None (Form "Lunch" "abc" "Food")) = None.
Proof.
  split.
  - apply (@add_expense_rejects plain_float). vm_compute. reflexivity.
  - apply (@add_expense_rejects plain_float None (Form "Lunch" "abc" "Food")).
    vm_compute. reflexivity.
Defined.

(** A submission that parses is appended as the application writes it. *)
Example add_expense_writes :
  @add_expense plain_float None (Form "Coffee" "4.50" "Food")
  = (Some (Examples.file ["Coffee,4.5,Food"]),
     (("Expense " ++ Text.dquote ++ "Coffee" ++ Text.dquote ++
       " of $4.50 added successfully!")%string, "success")).
Proof.
  vm_compute. reflexivity.
Qed.

(** C10: the aggregator leaves out of its records, and so of
    total_spent, total_expenses and the category totals, every stored
    record whose name or category is missing, even when its amount reads
    as a number; the chart renderer leaves out only the records whose
    amount or category is missing; so the two can count different
    record sets for one store: with a nameless record of 5.0 next to a
    complete one of 4.50, both in Food, the aggregator reports Food 4.5
    and the chart draws Food 9.5. *)
Theorem aggregator_stricter_than_chart :
  (forall (pandas : Pandas) (matplotlib : Matplotlib)
          (content : string) (df : DataFrame cell) (now : datetime),
     read_csv content = Ok df ->
     exists s,
       get_expense_data (Some content) now = Ok s /\
       (forall r, In r (expenses_list s) <->
          In r (Pd.to_numeric to_numeric_str df) /\
          Pd.isna (amount r) = false /\
          name r <> None /\ category r <> None) /\
       total_spent s
       = Pd.Series_sum (amount_dtype df) (map amount (expenses_list s)) /\
       total_expenses s = Z.of_nat (List.length (expenses_list s)) /\
       category_totals s = Pd.groupby_sum (expenses_list s) /\
       (forall r, In r (chart_frame df) <->
          In r (Pd.to_numeric to_numeric_str df) /\
          Pd.isna (amount r) = false /\ category r <> None) /\
       generate_chart (Some content) =
       (if Pd.empty (chart_frame df)
        then (Error "No valid expenses found", 404)
        else
          match savefig_png (chart_bars (chart_frame df)) with
          | Ok png => (Chart (Base64.b64encode png), 200)
          | Raise e => (Error ("Error generating chart: " ++ e)%string, 500)
          end)) /\
  (exists df s,
     Plain.read_csv Examples.nameless = Ok df /\
     @get_expense_data plain_pandas (Some Examples.nameless) Examples.jan29
     = Ok s /\
     List.length (expenses_list s) = 1%nat /\
     List.length (@chart_frame plain_pandas df) = 2%nat /\
     Examples.show_series (category_totals s) = [("Food", "4.5")] /\
     Examples.show_series (chart_bars (@chart_frame plain_pandas df))
     = [("Food", "9.5")]).
Proof.
  split.
  - intros pandas matplotlib content df now Hread. eexists. split.
    { apply (get_expense_data_read content df now Hread). }
    cbn zeta.
    cbn [expenses_list total_spent total_expenses category_totals].
    split; [intros r; apply PdFacts.dropna_complete|].
    split; [reflexivity|]. split; [reflexivity|]. split; [reflexivity|].
    split; [intros r; apply chart_frame_In|].
    apply (generate_chart_read content df Hread).
  - eexists. eexists. split; [vm_compute; reflexivity|].
    split; [vm_compute; reflexivity|].
    repeat split.
Qed.

(** C10 on the store with a nameless record: every record the
    aggregator returns has a name. *)
Lemma aggregator_stricter_witness :
  exists s,
    @get_expense_data plain_pandas (Some Examples.nameless) Examples.jan29
    = Ok s /\
    forall r, In r (expenses_list s) -> name r <> None.
Proof.
  edestruct (proj1 aggregator_stricter_than_chart plain_pandas
               plain_matplotlib Examples.nameless)
    with (now := Examples.jan29) as (s & Hs & Hrows & _).
  { vm_compute. reflexivity. }
  exists s. split; [exact Hs|].
  intros r Hr. apply Hrows in Hr. tauto.
Defined.
(* ================================================================== *)
(** ** Submissions and deletions in sequence *)
(* ================================================================== *)

Module StringFacts.

Lemma append_assoc (a b c : string) :
  ((a ++ b) ++ c = a ++ (b ++ c))%string.
Proof.
  induction a as [|x a IH]; simpl; [reflexivity|].
  rewrite IH. reflexivity.
Qed.

Lemma append_empty_r (a : string) : (a ++ "" = a)%string.
Proof.
  induction a as [|x a IH]; simpl; [reflexivity|].
  rewrite IH. reflexivity.
Qed.

Lemma length_append (a b : string) :
  String.length (a ++ b) = (String.length a + String.length b)%nat.
Proof.
  induction a as [|x a IH]; simpl; [reflexivity|].
  rewrite IH. reflexivity.
Qed.

(** Appending something that is not empty gives another string. *)
Lemma append_neq (a b : string) : b <> "" -> (a ++ b)%string <> a.
Proof.
  intros Hb Heq. apply (f_equal String.length) in Heq.
  rewrite length_append in Heq.
  destruct b as [|x b]; [congruence|]. simpl in Heq. lia.
Qed.

End StringFacts.

Section RequestProperties.

Context {python : PyFloat}.

(** The line of a submission ends in the newline written after it. *)
Lemma record_line_terminated (f : form) (a : float) :
  exists front, record_line f a = (front ++ Text.newline)%string.
Proof.
  exists (form_name f ++ "," ++ Text.repr_float a ++ "," ++ form_category f)%string.
  unfold record_line. rewrite !StringFacts.append_assoc. reflexivity.
Qed.

Lemma record_line_not_empty (f : form) (a : float) : record_line f a <> "".
Proof.
  destruct (record_line_terminated f a) as (front & ->).
  destruct front; discriminate.
Qed.

(** One submission: the text grows by the accepted line, if any, and the
    store is there afterwards when it was there or when the line was
    written. *)
Lemma add_expense_text (fs : store) (f : form) :
  text_of (fst (add_expense fs f))
  = (text_of fs ++ joined (accepted_lines [f]))%string /\
  exists_ (fst (add_expense fs f)) = exists_ fs || accepted f.
Proof.
  unfold add_expense, accepted_lines, accepted. cbn [flat_map].
  destruct (py_float (form_amount f)) as [a|]; cbn [fst app joined fold_right].
  - rewrite StringFacts.append_empty_r.
    destruct fs as [content|]; split; reflexivity.
  - rewrite StringFacts.append_empty_r.
    destruct fs as [content|]; split; reflexivity.
Qed.

Lemma joined_app (l1 l2 : list string) :
  joined (l1 ++ l2) = (joined l1 ++ joined l2)%string.
Proof.
  induction l1 as [|x l1 IH]; simpl; [reflexivity|].
  rewrite IH, StringFacts.append_assoc. reflexivity.
Qed.

(** X1: after any sequence of submissions the text of the store is the
    text it had, followed by one line [name,amount,category] per accepted
    submission, in the order of submission; rejected submissions leave no
    trace, nothing written before is changed or removed, and the store
    exists afterwards exactly when it existed before or a submission was
    accepted. *)
Theorem serve_submissions (fs : store) (forms : list form) :
  text_of (serve fs (map PostAdd forms))
  = (text_of fs ++ joined (accepted_lines forms))%string /\
  exists_ (serve fs (map PostAdd forms))
  = exists_ fs || existsb accepted forms.
Proof.
  revert fs. induction forms as [|f forms IH]; intros fs.
  - cbn. rewrite StringFacts.append_empty_r, orb_false_r. split; reflexivity.
  - change (serve fs (map PostAdd (f :: forms)))
      with (serve (fst (add_expense fs f)) (map PostAdd forms)).
    destruct (IH (fst (add_expense fs f))) as [Htext Hex].
    destruct (add_expense_text fs f) as [Htext1 Hex1].
    assert (Hlines : accepted_lines (f :: forms)
                     = (accepted_lines [f] ++ accepted_lines forms)%list).
    { unfold accepted_lines. cbn [flat_map]. rewrite app_nil_r. reflexivity. }
    rewrite Hlines.
    rewrite Htext, Hex, Htext1, Hex1, joined_app, StringFacts.append_assoc.
    split; [reflexivity|].
    cbn [existsb]. rewrite orb_assoc. reflexivity.
Qed.

(** X2: a submission changes the store exactly when its amount parses:
    an accepted one always leaves another store than it found (longer by
    its line), a rejected one the same store. *)
Theorem add_expense_changes_iff_accepted (fs : store) (f : form) :
  (fst (add_expense fs f) = fs <-> py_float (form_amount f) = None) /\
  (snd (snd (add_expense fs f)) = "success"
   <-> exists a, py_float (form_amount f) = Some a) /\
  (snd (snd (add_expense fs f)) = "error"
   <-> py_float (form_amount f) = None).
Proof.
  unfold add_expense.
  destruct (py_float (form_amount f)) as [a|] eqn:E; cbn [fst snd].
  - split; [|split].
    + split; [|discriminate]. intros H. exfalso.
      destruct fs as [content|]; cbn in H; [|discriminate].
      injection H as H.
      exact (StringFacts.append_neq content _ (record_line_not_empty f a) H).
    + split; [eauto|reflexivity].
    + split; discriminate.
  - split; [|split].
    + split; reflexivity.
    + split; [discriminate|]. intros (a & Ha). discriminate.
    + split; reflexivity.
Qed.

(** X3: a store whose text is empty or ends with a newline stays so under
    every sequence of submissions and deletions: a record is never
    appended to an unfinished line.  The absent store is such a store. *)
Theorem serve_well_terminated (fs : store) (rs : list request) :
  well_terminated fs -> well_terminated (serve fs rs).
Proof.
  revert fs. induction rs as [|r rs IH]; intros fs Hfs; [exact Hfs|].
  cbn [serve fold_left]. apply IH.
  destruct r as [f|]; cbn [handle].
  - unfold add_expense.
    destruct (py_float (form_amount f)) as [a|]; cbn [fst]; [|exact Hfs].
    destruct (record_line_terminated f a) as (front & Hline).
    unfold record_line in Hline. cbn [expense_name expense_amount expense_category].
    destruct fs as [content|]; cbn [exists_ option_map well_terminated];
      right.
    + exists (content ++ front)%string.
      rewrite Hline, StringFacts.append_assoc. reflexivity.
    + exists front. rewrite Hline. reflexivity.
  - unfold clear_all. destruct (exists_ fs); cbn [fst]; [exact I|exact Hfs].
Qed.

End RequestProperties.

(* ================================================================== *)
(** ** More about the snapshot *)
(* ================================================================== *)

Module CalendarFacts.

(** Looks up the month length of a given month and settles whether it
    is February. *)
Ltac table_entry :=
  match goal with
  | |- context [nth (Z.to_nat ?k) mdays 0] =>
    let v := eval vm_compute in (nth (Z.to_nat k) mdays 0) in
    change (nth (Z.to_nat k) mdays 0) with v;
    let b := eval vm_compute in (k =? 2) in
    change (k =? 2) with b; cbn [andb]
  end.

(** Every month of the calendar has 28 to 31 days. *)
Lemma days_in_month_bounds (y m : Z) :
  1 <= m <= 12 -> 28 <= days_in_month y m <= 31.
Proof.
  intros Hm.
  assert (H : m = 1 \/ m = 2 \/ m = 3 \/ m = 4 \/ m = 5 \/ m = 6 \/ m = 7 \/
              m = 8 \/ m = 9 \/ m = 10 \/ m = 11 \/ m = 12) by lia.
  unfold days_in_month.
  assert (Hleap : 0 <= (if isleap y then 1 else 0) <= 1)
    by (destruct (isleap y); lia).
  repeat (destruct H as [H|H]; [subst m; table_entry; lia|]).
  subst m. table_entry. lia.
Qed.

End CalendarFacts.

Section SnapshotProperties.

Context {pandas : Pandas}.

Lemma categories_length (df : DataFrame number) :
  (List.length (Pd.categories df) <= List.length df)%nat.
Proof.
  unfold Pd.categories. induction df as [|r df IH]; simpl; [lia|].
  destruct (category r); simpl; lia.
Qed.

Lemma nodup_length (l : list string) :
  (List.length (nodup string_dec l) <= List.length l)%nat.
Proof.
  induction l as [|x l IH]; simpl; [lia|].
  destruct (in_dec string_dec x l); simpl; lia.
Qed.

(** X4: in every snapshot total_expenses is the number of records
    returned and is not negative; there are at most as many category
    totals as records, and none exactly when there is no record; the
    categories of the totals are exactly the categories of the records
    returned. *)
Theorem snapshot_counts (fs : store) (now : datetime) :
  readable fs ->
  exists s,
    get_expense_data fs now = Ok s /\
    total_expenses s = Z.of_nat (List.length (expenses_list s)) /\
    0 <= total_expenses s /\
    Z.of_nat (List.length (category_totals s)) <= total_expenses s /\
    (category_totals s = [] <-> expenses_list s = []) /\
    (forall k, In k (map fst (category_totals s)) <->
       exists r, In r (expenses_list s) /\ category r = Some k).
Proof.
  destruct fs as [content|]; unfold readable.
  - intros (df & Hread). eexists. split.
    { apply (get_expense_data_read content df now Hread). }
    cbn zeta. cbn [expenses_list total_expenses category_totals].
    split; [reflexivity|]. split; [lia|]. split; [|split].
    + rewrite PdFacts.groupby_length.
      pose proof (nodup_length (Pd.categories (kept df))).
      pose proof (categories_length (kept df)). lia.
    + split; intros Hnil.
      * destruct (kept df) as [|r rows] eqn:Hkept; [reflexivity|]. exfalso.
        assert (Hr : In r (kept df)) by (rewrite Hkept; left; reflexivity).
        pose proof Hr as Hc. apply PdFacts.dropna_complete in Hc.
        destruct Hc as (_ & _ & _ & Hc).
        destruct (category r) as [c|] eqn:E; [|congruence].
        assert (Hk : In c (map fst (Pd.groupby_sum (kept df)))).
        { apply PdFacts.groupby_key_In, PdFacts.categories_In. eauto. }
        rewrite Hkept, Hnil in Hk. exact Hk.
      * rewrite Hnil. reflexivity.
    + intros k. rewrite PdFacts.groupby_key_In.
      apply PdFacts.categories_In.
  - intros _. eexists. split; [reflexivity|]. cbn.
    repeat split; try lia; try reflexivity; try contradiction.
    intros (r & [] & _).
Qed.



(** X6: on a date of the calendar the number of days that daily_budget
    divides by is between 1 and 30: the days left after today, and 1 on
    the last day of the month, when none is left. *)
Theorem daily_divisor_of_valid_date (content : string) (df : DataFrame cell)
    (now : datetime) :
  read_csv content = Ok df ->
  valid_date now ->
  exists s d,
    get_expense_data (Some content) now = Ok s /\
    daily_budget s
    = (if py_gt (remaining_budget s) (Int 0)
       then py_truediv (remaining_budget s) (Int d)
       else Int 0) /\
    1 <= d <= 30 /\
    (day now < days_in_month (year now) (month now) ->
     d = days_in_month (year now) (month now) - day now) /\
    (day now = days_in_month (year now) (month now) -> d = 1).
Proof.
  intros Hread [Hmonth Hday].
  pose proof (CalendarFacts.days_in_month_bounds (year now) (month now) Hmonth).
  eexists. exists (remaining_days now). split.
  { apply (get_expense_data_read content df now Hread). }
  cbn zeta. cbn [daily_budget remaining_budget].
  split; [reflexivity|]. unfold remaining_days.
  repeat split; lia.
Qed.

(** X7: the snapshot of a store is the same on the last day of a month
    and on the day before it (and on any two days from the day before
    the last on): both leave one remaining day. *)
Theorem last_two_days_same_snapshot (fs : store) (y m d d' : Z) :
  days_in_month y m - 1 <= d ->
  days_in_month y m - 1 <= d' ->
  get_expense_data fs (Date y m d) = get_expense_data fs (Date y m d').
Proof.
  intros Hd Hd'. destruct fs as [content|]; [|reflexivity].
  unfold get_expense_data. cbn [year month day].
  replace (Z.max 1 (days_in_month y m - d)) with 1 by lia.
  replace (Z.max 1 (days_in_month y m - d')) with 1 by lia.
  reflexivity.
Qed.

End SnapshotProperties.

(* ================================================================== *)
(** ** The handlers side by side *)
(* ================================================================== *)

Section HandlerProperties.

Context {pandas : Pandas} {matplotlib : Matplotlib} {python : PyFloat}.

(** The summary of a store that is read: 200 with the figures when the
    amount column holds floats, 500 when it holds whole numbers, which
    come out of the sums as numpy integers. *)
Lemma get_summary_read (content : string) (df : DataFrame cell)
    (now : datetime) :
  read_csv content = Ok df ->
  match amount_dtype df with
  | Pd.float64 =>
    exists total_spent remaining_budget daily_budget total_expenses
           category_totals,
      get_summary (Some content) now
      = (Summary total_spent remaining_budget daily_budget total_expenses
                 category_totals, 200)
  | Pd.int64 =>
    get_summary (Some content) now
    = (SummaryError "Object of type int64 is not JSON serializable", 500)
  end.
Proof.
  intros Hread. unfold get_summary.
  rewrite (get_expense_data_read content df now Hread).
  cbn zeta. cbn [bind total_spent remaining_budget daily_budget].
  destruct (amount_dtype df); cbn [Pd.Series_sum json_number bind];
    [reflexivity|].
  change (py_sub (Int BUDGET) (Float ?x))
    with (Float (F64.sub (F64.of_Z BUDGET) x)).
  cbn [json_number bind].
  destruct (py_gt _ _); cbn [py_truediv json_number bind]; eauto 6.
Qed.

(** X8: after [clear_all], whatever the store was (even text the reader
    refuses), the store is absent and every handler answers as on a
    fresh installation: the helper, the index and the summary give the
    zeroed figures with the budget of 2000, the chart answers 404 'No
    expenses found', the export warns that there is nothing to export,
    and a second [clear_all] warns that there is nothing to clear.  The
    first [clear_all] flashes success exactly when there was a store. *)
Theorem clear_all_recovers (fs : store) (now : datetime) :
  let after := fst (clear_all fs) in
  let zeroed := Snapshot [] [] (Int 0) (Int 2000) (Int 0) 0 in
  after = None /\
  snd (snd (clear_all fs)) = (if exists_ fs then "success" else "warning") /\
  get_expense_data after now = Ok zeroed /\
  index after now = Ok (zeroed, 2000) /\
  get_summary after now = (Summary (Int 0) (Int 2000) (Int 0) 0 [], 200) /\
  generate_chart after = (Error "No expenses found", 404) /\
  export_data after now = ("No expenses to export!", "warning") /\
  clear_all after = (None, ("No expenses to clear!", "warning")).
Proof.
  destruct fs as [content|]; cbn zeta; repeat split.
Qed.

(** X9: when the reader refuses the text of the store with an exception,
    the helper raises it; the index, which has no handler, raises it
    too; the summary answers 500 with its message, the chart answers 500
    with 'Error generating chart: ' and its message, and the export
    flashes 'Error exporting data: ' and its message as an error.  The
    two writing handlers do not read the store: a submission still
    appends its line and [clear_all] still removes the store. *)
Theorem unreadable_store_reported (content e : string) (now : datetime) :
  read_csv content = Raise e ->
  get_expense_data (Some content) now = Raise e /\
  index (Some content) now = Raise e /\
  get_summary (Some content) now = (SummaryError e, 500) /\
  generate_chart (Some content)
  = (Error ("Error generating chart: " ++ e)%string, 500) /\
  export_data (Some content) now
  = (("Error exporting data: " ++ e)%string, "error") /\
  (forall f a, py_float (form_amount f) = Some a ->
     fst (add_expense (Some content) f)
     = Some (content ++ record_line f a)%string) /\
  fst (clear_all (Some content)) = None.
Proof.
  intros Hread.
  assert (Hget : get_expense_data (Some content) now = Raise e).
  { unfold get_expense_data. rewrite Hread. reflexivity. }
  split; [exact Hget|].
  split; [unfold index; rewrite Hget; reflexivity|].
  split; [unfold get_summary; rewrite Hget; reflexivity|].
  split; [unfold generate_chart; rewrite Hread; reflexivity|].
  split; [unfold export_data; cbn [exists_ negb]; rewrite Hget; reflexivity|].
  split; [|reflexivity].
  intros f a Ha. unfold add_expense. rewrite Ha. reflexivity.
Qed.

(** X10: the export flashes a warning exactly when the store is absent,
    an error exactly when the store exists and the reader refuses its
    text, and a success exactly when the store exists and is read; the
    success message then reports the number of complete records and
    their total with two decimals. *)
Theorem export_data_outcome (fs : store) (now : datetime) :
  (snd (export_data fs now) = "warning" <-> fs = None) /\
  (snd (export_data fs now) = "error"
   <-> exists content e, fs = Some content /\ read_csv content = Raise e) /\
  (snd (export_data fs now) = "success"
   <-> exists content df, fs = Some content /\ read_csv content = Ok df) /\
  (forall content df,
     fs = Some content -> read_csv content = Ok df ->
     fst (export_data fs now)
     = ("Data exported! Total: " ++
        py_str_int (Z.of_nat (List.length (kept df))) ++
        " expenses, Amount: $" ++
        Text.format_2f
          (to_float (Pd.Series_sum (amount_dtype df)
                       (map amount (kept df)))))%string).
Proof.
  destruct fs as [content|].
  - unfold export_data. cbn [exists_ negb]. unfold get_expense_data.
    destruct (read_csv content) as [df|e] eqn:Hread; cbn [bind snd fst].
    + split; [split; discriminate|]. split; [|split].
      * split; [discriminate|]. intros (c & e & Hc & He).
        injection Hc as <-. congruence.
      * split; [eauto|reflexivity].
      * intros c df' Hc Hdf. injection Hc as <-.
        assert (df' = df) by congruence. subst df'. reflexivity.
    + split; [split; discriminate|]. split; [|split].
      * split; [eauto|reflexivity].
      * split; [discriminate|]. intros (c & df & Hc & Hdf).
        injection Hc as <-. congruence.
      * intros c df Hc Hdf. injection Hc as <-. congruence.
  - cbn. split; [split; reflexivity|]. split; [|split].
    + split; [discriminate|]. intros (c & e & Hc & _). discriminate.
    + split; [discriminate|]. intros (c & df & Hc & _). discriminate.
    + intros c df Hc. discriminate.
Qed.

(** X11: the chart renderer answers with status 200, 404 or 500, and
    with an image exactly when the status is 200.  A 200 is only given
    for a store that was read and holds at least one row with a numeric
    amount and a category; a 404 only for an absent store or one without
    such a row; so with such a row the answer is never 404.  An
    exception of the reader is answered with 500 and its message. *)
Theorem chart_status (fs : store) :
  let body := fst (generate_chart fs) in
  let status := snd (generate_chart fs) in
  (status = 200 \/ status = 404 \/ status = 500) /\
  ((exists img, body = Chart img) <-> status = 200) /\
  (status = 200 ->
   exists content df r,
     fs = Some content /\ read_csv content = Ok df /\ In r df /\
     Pd.isna (Pd.to_numeric_cell to_numeric_str (amount r)) = false /\
     category r <> None) /\
  (status = 404 ->
   fs = None \/
   exists content df,
     fs = Some content /\ read_csv content = Ok df /\ chart_frame df = []) /\
  (forall content e,
     fs = Some content -> read_csv content = Raise e ->
     generate_chart fs = (Error ("Error generating chart: " ++ e)%string, 500)).
Proof.
  cbn zeta. destruct fs as [content|].
  - destruct (read_csv content) as [df|e] eqn:Hread.
    + rewrite (generate_chart_read content df Hread).
      destruct (chart_frame df) as [|r0 rows] eqn:Hframe; cbn [Pd.empty].
      * cbn [fst snd]. split; [auto|].
        split; [split; [intros (img & H)|]; discriminate|].
        split; [discriminate|]. split; [|intros c e' Hc; congruence].
        intros _. right. eauto.
      * assert (Hvalid : exists r, In r df /\
                  Pd.isna (Pd.to_numeric_cell to_numeric_str (amount r))
                  = false /\ category r <> None).
        { assert (Hin : In r0 (chart_frame df))
            by (rewrite Hframe; left; reflexivity).
          apply chart_frame_In in Hin. destruct Hin as (Hin & Hnum & Hcat).
          apply PdFacts.to_numeric_elim in Hin.
          destruct Hin as (r & Hr & _ & Hc & Hna).
          exists r. rewrite <- Hna, <- Hc. auto. }
        destruct (savefig_png (chart_bars (r0 :: rows))) as [png|e];
          cbn [fst snd].
        -- split; [auto|]. split; [split; eauto|].
           split; [|split; [discriminate|intros c e' Hc; congruence]].
           intros _. destruct Hvalid as (r & Hr). exists content, df, r.
           tauto.
        -- split; [auto|].
           split; [split; [intros (img & H)|]; discriminate|].
           split; [discriminate|].
           split; [discriminate|intros c e' Hc; congruence].
    + assert (H : generate_chart (Some content)
                  = (Error ("Error generating chart: " ++ e)%string, 500)).
      { unfold generate_chart. rewrite Hread. reflexivity. }
      rewrite H. cbn [fst snd]. split; [auto|].
      split; [split; [intros (img & Himg)|]; discriminate|].
      split; [discriminate|]. split; [discriminate|].
      intros c e' Hc He'. injection Hc as <-. congruence.
  - cbn. split; [auto|].
    split; [split; [intros (img & H)|]; discriminate|].
    split; [discriminate|]. split; [auto|]. intros c e Hc. discriminate.
Qed.

(** X12: when every row of the store has a name, the chart is drawn from
    exactly the records of the snapshot: its bars are the category
    totals of the snapshot, sorted descending. *)
Theorem chart_agrees_when_named (content : string) (df : DataFrame cell)
    (now : datetime) :
  read_csv content = Ok df ->
  (forall r, In r df -> name r <> None) ->
  exists s,
    get_expense_data (Some content) now = Ok s /\
    chart_frame df = expenses_list s /\
    chart_bars (chart_frame df) = Pd.sort_values_desc (category_totals s) /\
    Permutation (chart_bars (chart_frame df)) (category_totals s) /\
    StronglySorted desc_pair (chart_bars (chart_frame df)).
Proof.
  intros Hread Hnamed. eexists. split.
  { apply (get_expense_data_read content df now Hread). }
  cbn zeta. cbn [expenses_list category_totals].
  assert (Hsame : chart_frame df = kept df).
  { unfold chart_frame, kept, Pd.dropna_amount_category, Pd.dropna.
    apply filter_ext_in. intros r Hr.
    apply PdFacts.to_numeric_elim in Hr.
    destruct Hr as (r' & Hr' & Hname & _ & _).
    unfold Pd.amount_and_category, Pd.complete_row. rewrite Hname.
    destruct (name r') eqn:E; [|exfalso; exact (Hnamed r' Hr' E)].
    reflexivity. }
  rewrite Hsame. split; [reflexivity|]. split; [reflexivity|]. split.
  - apply SortFacts.sort_values_desc_perm.
  - apply SortFacts.sorted_groupby.
Qed.

End HandlerProperties.
(* ================================================================== *)
(** ** The further properties on concrete stores *)
(* ================================================================== *)

(** Two submissions, one of them rejected, after a deletion: the store
    holds the one accepted line. *)
Example serve_from_scratch :
  @serve plain_float (Some Examples.rent)
    [PostClearAll; PostAdd (Form "Lunch" "abc" "Food");
     PostAdd (Form "Coffee" "4.50" "Food")]
  = Some (Examples.file ["Coffee,4.5,Food"]).
Proof.
  vm_compute. reflexivity.
Qed.

(** X3 from the absent store. *)
Lemma serve_well_terminated_witness :
  well_terminated None /\
  well_terminated
    (@serve plain_float None
       [PostAdd (Form "Coffee" "4.50" "Food"); PostClearAll;
        PostAdd (Form "Lunch" "abc" "Food");
        PostAdd (Form "Bus" "2" "Transport")]).
Proof.
  split; [exact I|].
  apply (@serve_well_terminated plain_float None). exact I.
Defined.

(** X4 on the scenario of the specification: two records, two
    categories. *)
Lemma snapshot_counts_witness :
  exists s,
    @get_expense_data plain_pandas (Some Examples.coffee_and_bus)
      Examples.jan29 = Ok s /\
    total_expenses s = 2 /\
    Z.of_nat (List.length (category_totals s)) <= total_expenses s.
Proof.
  destruct (@snapshot_counts plain_pandas (Some Examples.coffee_and_bus)
              Examples.jan29) as (s & Hs & Hcount & _ & Hcats & _).
  { eexists. vm_compute. reflexivity. }
  exists s. split; [exact Hs|]. split; [|exact Hcats].
  vm_compute in Hs. injection Hs as <-. reflexivity.
Defined.


(** X6 on the leap day of 2024, the last day of its month. *)
Lemma daily_divisor_witness :
  valid_date MoreExamples.feb29_2024 /\
  exists s,
    @get_expense_data plain_pandas (Some Examples.coffee_and_bus)
      MoreExamples.feb29_2024 = Ok s /\
    daily_budget s = py_truediv (remaining_budget s) (Int 1).
Proof.
  assert (Hdays : days_in_month 2024 2 = 29) by (vm_compute; reflexivity).
  assert (Hvalid : valid_date MoreExamples.feb29_2024).
  { unfold valid_date, MoreExamples.feb29_2024. cbn [year month day].
    rewrite Hdays. lia. }
  split; [exact Hvalid|].
  edestruct (@daily_divisor_of_valid_date plain_pandas
               Examples.coffee_and_bus)
    with (now := MoreExamples.feb29_2024)
    as (s & d & Hs & Hdaily & _ & _ & Hlast).
  { vm_compute. reflexivity. }
  { exact Hvalid. }
  exists s. split; [exact Hs|].
  rewrite Hdaily, (Hlast eq_refl).
  vm_compute in Hs. injection Hs as <-. reflexivity.
Defined.

(** X7 on 28 and 29 February 2024. *)
Lemma last_two_days_witness :
  @get_expense_data plain_pandas (Some Examples.coffee_and_bus)
    MoreExamples.feb28_2024
  = @get_expense_data plain_pandas (Some Examples.coffee_and_bus)
      MoreExamples.feb29_2024.
Proof.
  apply (@last_two_days_same_snapshot plain_pandas
           (Some Examples.coffee_and_bus) 2024 2 28 29);
    vm_compute; discriminate.
Defined.

(** X9 on a line of four fields after a line of three, which the reader
    refuses. *)
Lemma unreadable_store_witness :
  exists e,
    Plain.read_csv MoreExamples.ragged = Raise e /\
    @index plain_pandas (Some MoreExamples.ragged) Examples.jan29 = Raise e /\
    @get_summary plain_pandas (Some MoreExamples.ragged) Examples.jan29
    = (SummaryError e, 500) /\
    @generate_chart plain_pandas plain_matplotlib (Some MoreExamples.ragged)
    = (Error ("Error generating chart: " ++ e)%string, 500) /\
    @export_data plain_pandas (Some MoreExamples.ragged) Examples.jan29
    = (("Error exporting data: " ++ e)%string, "error").
Proof.
  eexists. split; [vm_compute; reflexivity|].
  edestruct (@unreadable_store_reported plain_pandas plain_matplotlib
               plain_float MoreExamples.ragged)
    with (now := Examples.jan29)
    as (_ & Hindex & Hsummary & Hchart & Hexport & _).
  { vm_compute. reflexivity. }
  repeat split; assumption.
Defined.

(** A single line of four fields is read: its first field is the index
    of the row, and the record counts as any other. *)
Example four_fields_is_read :
  exists s,
    @get_expense_data plain_pandas (Some MoreExamples.four_fields)
      Examples.jan29 = Ok s /\
    map name (expenses_list s) = [Some "Cafe"] /\
    Examples.show (total_spent s) = "12.5" /\
    Examples.show_series (category_totals s) = [("Food", "12.5")] /\
    snd (@get_summary plain_pandas (Some MoreExamples.four_fields)
           Examples.jan29) = 200.
Proof.
  eexists. split; [vm_compute; reflexivity|].
  repeat split.
Qed.

(** The summary of a store of whole amounts: its figures are numpy
    integers, which [jsonify] refuses; the export formats them. *)
Example summary_of_whole_amounts :
  @get_summary plain_pandas (Some Examples.whole_amounts) Examples.jan29
  = (SummaryError "Object of type int64 is not JSON serializable", 500) /\
  @export_data plain_pandas (Some Examples.whole_amounts) Examples.jan29
  = ("Data exported! Total: 3 expenses, Amount: $1300.00", "success").
Proof.
  split; vm_compute; reflexivity.
Qed.

(** X12 on the scenario of the specification, where every record has a
    name: the bars are Food 4.5 and Transport 2.0. *)
Lemma chart_agrees_witness :
  exists df s,
    Plain.read_csv Examples.coffee_and_bus = Ok df /\
    @get_expense_data plain_pandas (Some Examples.coffee_and_bus)
      Examples.jan29 = Ok s /\
    chart_bars (@chart_frame plain_pandas df)
    = Pd.sort_values_desc (category_totals s) /\
    Examples.show_series (chart_bars (@chart_frame plain_pandas df))
    = [("Food", "4.5"); ("Transport", "2.0")].
Proof.
  edestruct (@chart_agrees_when_named plain_pandas Examples.coffee_and_bus)
    with (now := Examples.jan29) as (s & Hs & _ & Hbars & _).
  { vm_compute. reflexivity. }
  { intros r [<-|[<-|[]]]; discriminate. }
  eexists. exists s. split; [vm_compute; reflexivity|].
  split; [exact Hs|]. split; [exact Hbars|].
  vm_compute. reflexivity.
Defined.

(** The export on the scenario of the specification. *)
Example export_coffee_and_bus :
  @export_data plain_pandas (Some Examples.coffee_and_bus) Examples.jan29
  = ("Data exported! Total: 2 expenses, Amount: $6.50", "success").
Proof.
  vm_compute. reflexivity.
Qed.
